(** * Retrieval routing, filtering and answer assembly of the ops assistant

    A shallow embedding of [retrieval/filters.py], [retrieval/retrievers.py],
    [retrieval/routing.py], [chains/intent_chain.py] and [chains/rag_chain.py].

    Modelling conventions.
    - A Python [str] is a Rocq [string] whose characters are read as the code
      points 0..255; [lower], [strip] and the ordering used by [sorted] follow
      CPython on that range.
    - A Python object stored in a metadata mapping is a [value].
    - A [dict] keyed by strings is a [gmap string _]; a [set] of strings is a
      [gset string].
    - The vector index and the language model are collaborators: they are
      Section variables, and every call to one of them is logged as an [event]
      so that statements about which calls happen can be made.
    - [os.path] is [posixpath]. *)

From Stdlib Require Import ZArith QArith.
From Stdlib Require Import Strings.String Strings.Ascii DecimalString.
From stdpp Require Import base gmap strings list sorting.

Local Open Scope string_scope.
Local Open Scope Z_scope.

(** ** Python strings *)

Module PyStr.

Definition ord (c : ascii) : N := N_of_ascii c.

(** Code points that [str.lower] changes: A-Z and the Latin-1 capitals
    U+00C0..U+00DE without the multiplication sign U+00D7. *)
Definition is_cased_upper (c : ascii) : bool :=
  let n := ord c in
  ((65 <=? n) && (n <=? 90) ||
   (192 <=? n) && (n <=? 222) && negb (n =? 215))%N.

Definition lower_char (c : ascii) : ascii :=
  if is_cased_upper c then ascii_of_N (ord c + 32) else c.

Fixpoint lower (s : string) : string :=
  match s with
  | EmptyString => EmptyString
  | String c s' => String (lower_char c) (lower s')
  end.

(** [str.isspace] on one code point: TAB..CR, FS..US, SPACE, NEL, NBSP. *)
Definition isspace (c : ascii) : bool :=
  let n := ord c in
  ((9 <=? n) && (n <=? 13) || (28 <=? n) && (n <=? 32) ||
   (n =? 133) || (n =? 160))%N.

Fixpoint lstrip (s : string) : string :=
  match s with
  | EmptyString => EmptyString
  | String c s' => if isspace c then lstrip s' else s
  end.

Fixpoint rstrip (s : string) : string :=
  match s with
  | EmptyString => EmptyString
  | String c s' =>
      match rstrip s' with
      | EmptyString => if isspace c then EmptyString else String c EmptyString
      | r => String c r
      end
  end.

Definition strip (s : string) : string := rstrip (lstrip s).

(** [s.rfind(c)]: index of the last occurrence, [-1] when there is none. *)
Fixpoint rfind (c : ascii) (s : string) : Z :=
  match s with
  | EmptyString => -1
  | String a s' =>
      let r := rfind c s' in
      if 0 <=? r then r + 1
      else if Ascii.eqb a c then 0 else -1
  end.

(** [s[n:]] for a non-negative [n]. *)
Fixpoint drop (n : nat) (s : string) : string :=
  match n, s with
  | O, _ => s
  | S n', String _ s' => drop n' s'
  | S _, EmptyString => EmptyString
  end.

(** [posixpath.basename]: [i = p.rfind('/') + 1; return p[i:]]. *)
Definition basename (p : string) : string :=
  let i := rfind "/"%char p + 1 in
  drop (Z.to_nat i) p.

(** [sep.join(parts)]. *)
Fixpoint join (sep : string) (parts : list string) : string :=
  match parts with
  | [] => ""
  | [p] => p
  | p :: ps => p ++ sep ++ join sep ps
  end.

(** [str(n)] for an [int]. *)
Definition of_int (z : Z) : string := NilZero.string_of_int (Z.to_int z).

(** The order of [str.__lt__] / [sorted]: lexicographic on code points. *)
Definition le (a b : string) : Prop := String.leb a b = true.

#[global] Instance le_dec (a b : string) : Decision (le a b).
Proof. unfold le. apply _. Defined.

(** The strict order, [str.__lt__]. *)
Definition lt (a b : string) : Prop := String.ltb a b = true.

End PyStr.

(** ** Python objects held in metadata mappings *)

Inductive value : Type :=
| VNone
| VBool (b : bool)
| VInt (z : Z)
| VStr (s : string).

#[global] Instance value_eq_dec : EqDecision value.
Proof. solve_decision. Defined.

(** Truth value of an object, as tested by [if x:] and [x or y]. *)
Definition truthy (v : value) : bool :=
  match v with
  | VNone => false
  | VBool b => b
  | VInt z => negb (z =? 0)
  | VStr s => negb (String.eqb s "")
  end.

(** [str(x)], which is also what an f-string field [{x}] renders. *)
Definition py_str (v : value) : string :=
  match v with
  | VNone => "None"
  | VBool true => "True"
  | VBool false => "False"
  | VInt z => PyStr.of_int z
  | VStr s => s
  end.

(** A retrieved chunk.  [metadata] is optional because the code guards it
    with [d.metadata or {}]. *)
Record Document : Type := mkDocument {
  page_content : string;
  metadata : option (gmap string value);
}.

(** ** retrieval/filters.py *)

(** One entry of a filter mapping: a plain value to be matched, or the
    range mapping [{"$lte": n}]. *)
Inductive constraint : Type :=
| CVal (v : value)
| CLte (n : Z).

#[global] Instance constraint_eq_dec : EqDecision constraint.
Proof. solve_decision. Defined.

Definition build_metadata_filter
    (source_type service : option string) (max_priority : option Z)
  : gmap string constraint :=
  let flt : gmap string constraint := ∅ in
  let flt :=
    match source_type with
    | Some s => if truthy (VStr s)
                then <["source_type" := CVal (VStr s)]> flt else flt
    | None => flt
    end in
  let flt :=
    match service with
    | Some s => if truthy (VStr s) && negb (String.eqb s "unknown")
                then <["service" := CVal (VStr s)]> flt else flt
    | None => flt
    end in
  let flt :=
    match max_priority with
    | Some n => <["priority_order" := CLte n]> flt
    | None => flt
    end in
  flt.

Definition build_all_sources_filter (service : option string)
  : gmap string constraint :=
  build_metadata_filter None service None.

(** ** Collaborator calls: results, exceptions and the call log *)

Inductive exn : Type :=
| PyExc (name : string).

Inductive result (A : Type) : Type :=
| Ok (a : A)
| Raise (e : exn).
Arguments Ok {A} a.
Arguments Raise {A} e.

Inductive search_type : Type :=
| similarity
| similarity_score_threshold.

(** The [search_kwargs] mapping handed to [as_retriever]: ["k"] is always
    present, ["filter"] and ["score_threshold"] only when the code sets them. *)
Record search_kwargs : Type := mkKwargs {
  kw_k : Z;
  kw_filter : option (gmap string constraint);
  kw_score_threshold : option Q;
}.

Record Retriever (VectorStore : Type) : Type := mkRetriever {
  r_vectorstore : VectorStore;
  r_search_type : search_type;
  r_search_kwargs : search_kwargs;
}.
Arguments mkRetriever {VectorStore} _ _ _.
Arguments r_vectorstore {VectorStore} _.
Arguments r_search_type {VectorStore} _.
Arguments r_search_kwargs {VectorStore} _.

Inductive event : Type :=
| EvClassify (query : string)
| EvSearch (st : search_type) (kw : search_kwargs) (query : string)
| EvGenerate (query context history : string).

(** A computation either returns or raises, and logs the collaborator
    calls it made up to that point. *)
Definition M (A : Type) : Type := (result A * list event)%type.

#[export] Instance M_ret : MRet M := λ A a, (Ok a, []).
#[export] Instance M_bind : MBind M := λ A B f m,
  match m with
  | (Ok a, t) => let '(r, t') := f a in (r, (t ++ t')%list)
  | (Raise e, t) => (Raise e, t)
  end.

Definition raise {A} (e : exn) : M A := (Raise e, []).
Definition outcome {A} (m : M A) : result A := fst m.
Definition calls {A} (m : M A) : list event := snd m.

(** [if xs:] for a list. *)
Definition nonempty {A} (xs : list A) : bool :=
  match xs with
  | [] => false
  | _ :: _ => true
  end.

(** ** chains/rag_chain.py: reference identifiers *)

Definition NULL_LIKE : gset string := {[ "none"; "null"; "" ]}.
Definition NULL_NAMES : gset string := {[ "none"; "null" ]}.

(** The body of the [for d in docs] loop of [_extract_reference_ids]. *)
Definition ref_step (r_doc : gset string) (d : Document) : gset string :=
  let md := default ∅ (metadata d) in
  match md !! "source" with
  | None => r_doc
  | Some doc_src =>
      if negb (truthy doc_src) then r_doc
      else if bool_decide (PyStr.lower (py_str doc_src) ∈ NULL_LIKE) then r_doc
      else
        let filename := PyStr.basename (PyStr.strip (py_str doc_src)) in
        if truthy (VStr filename)
           && bool_decide (PyStr.lower filename ∉ NULL_NAMES)
        then {[ filename ]} ∪ r_doc
        else r_doc
  end.

Definition _extract_reference_ids (docs : list Document) : list string :=
  let r_doc := foldl ref_step ∅ docs in
  merge_sort PyStr.le (elements r_doc).

(** ** chains/rag_chain.py: prompt context *)

Definition MAX_CONTEXT_DOCS : nat := 6.

Definition SP16 : string := "                ".
Definition SP20 : string := "                    ".
Definition NL : string := String (ascii_of_N 10) EmptyString.

(** [d.metadata.get(key, dflt)]; there is no [or {}] guard here, so a
    document without a metadata mapping raises. *)
Definition metadata_get (d : Document) (key : string) (dflt : value)
  : M value :=
  match metadata d with
  | None => raise (PyExc "AttributeError")
  | Some md => mret (default dflt (md !! key))
  end.

Definition context_block (d : Document) : M string :=
  source ← metadata_get d "source_type" (VStr "unknown");
  service ← metadata_get d "service" (VStr "unknown");
  let block :=
    NL ++ SP20 ++ "Source: " ++ py_str source ++
    NL ++ SP20 ++ "Service: " ++ py_str service ++
    NL ++ SP20 ++ "Content:" ++
    NL ++ SP20 ++ page_content d ++
    NL ++ SP16 in
  mret (PyStr.strip block).

Definition _build_context (docs : list Document) : M string :=
  if negb (nonempty docs) then mret "No relevant documents found."
  else
    context_parts ← mapM context_block (take MAX_CONTEXT_DOCS docs);
    mret (PyStr.join (NL ++ NL ++ "---" ++ NL ++ NL) context_parts).

Definition NO_INFO : string :=
  "No relevant information found in runbooks, incidents, alerts, " ++
  "logs, or tickets. Please verify the issue or update the knowledge base.".

(** ** The pipeline over its collaborators *)

Section Pipeline.

Context {VectorStore : Type}.

(** [ingestion.build_index.load_vector_index]: the persisted index, or
    the exception raised when it cannot be loaded. *)
Variable load_vector_index : result VectorStore.

(** [retriever.invoke(query)] of a retriever made by
    [vectorstore.as_retriever(search_type=..., search_kwargs=...)]. *)
Variable retriever_invoke :
  VectorStore → search_type → search_kwargs → string → result (list Document).

(** [(INTENT_PROMPT | llm | StrOutputParser()).invoke({"query": q})]. *)
Variable intent_chain_invoke : string → result string.

(** [(RAG_PROMPT | llm).invoke({query, context, history}).content]. *)
Variable rag_chain_invoke : string → string → string → result string.

(** *** retrieval/retrievers.py *)

Definition RETRIEVER_TOP_K : Z := 5.

(** [@lru_cache] makes the load happen once; its outcome is fixed for
    the process, so the cache is not visible here. *)
Definition get_vectorstore : M VectorStore := (load_vector_index, []).

(** [top_k or RETRIEVER_TOP_K]. *)
Definition top_k_or_default (top_k : option Z) : Z :=
  match top_k with
  | Some n => if truthy (VInt n) then n else RETRIEVER_TOP_K
  | None => RETRIEVER_TOP_K
  end.

Definition get_base_retriever (top_k : option Z)
  : M (Retriever VectorStore) :=
  vectorstore ← get_vectorstore;
  let k := top_k_or_default top_k in
  mret (mkRetriever vectorstore similarity_score_threshold
          (mkKwargs k None (Some (3 # 4)%Q))).

Definition get_filtered_retriever
    (metadata_filter : option (gmap string constraint)) (top_k : option Z)
  : M (Retriever VectorStore) :=
  vectorstore ← get_vectorstore;
  let k := top_k_or_default top_k in
  let search_kwargs := mkKwargs k None None in
  let search_kwargs :=
    match metadata_filter with
    | Some f => if bool_decide (f ≠ ∅)
                then mkKwargs (kw_k search_kwargs) (Some f)
                       (kw_score_threshold search_kwargs)
                else search_kwargs
    | None => search_kwargs
    end in
  mret (mkRetriever vectorstore similarity search_kwargs).

Definition invoke (r : Retriever VectorStore) (query : string)
  : M (list Document) :=
  (retriever_invoke (r_vectorstore r) (r_search_type r)
     (r_search_kwargs r) query,
   [EvSearch (r_search_type r) (r_search_kwargs r) query]).

(** *** retrieval/routing.py *)

Definition RUNBOOK_TOP_K : Z := 3.
Definition ALERT_TOP_K : Z := 3.
Definition INCIDENT_TOP_K : Z := 3.

Definition _retrieve_with_filter (query : string)
    (metadata_filter : gmap string constraint) (top_k : option Z)
  : M (list Document) :=
  retriever ← get_filtered_retriever (Some metadata_filter) top_k;
  invoke retriever query.

Definition route_runbook_first (query : string) (service : option string)
  : M (list Document) :=
  let runbook_filter :=
    build_metadata_filter (Some "runbook") service None in
  docs ← _retrieve_with_filter query runbook_filter (Some RUNBOOK_TOP_K);
  if nonempty docs then mret docs
  else
    let alert_filter :=
      build_metadata_filter (Some "alert") service None in
    docs ← _retrieve_with_filter query alert_filter (Some ALERT_TOP_K);
    if nonempty docs then mret docs
    else
      let incident_filter :=
        build_metadata_filter (Some "incident") service None in
      docs ← _retrieve_with_filter query incident_filter
               (Some INCIDENT_TOP_K);
      mret docs.

Definition route_query (query intent : string) (service : option string)
  : M (list Document) :=
  if String.eqb intent "runbook_lookup" then
    route_runbook_first query service
  else if String.eqb intent "incident_analysis" then
    let flt := build_metadata_filter (Some "incident") service None in
    _retrieve_with_filter query flt None
  else if String.eqb intent "log_analysis" then
    let flt := build_metadata_filter (Some "log") service None in
    _retrieve_with_filter query flt None
  else
    let flt := build_metadata_filter None service None in
    _retrieve_with_filter query flt None.

(** *** chains/intent_chain.py *)

Definition allowed : gset string :=
  {[ "runbook_lookup"; "incident_analysis"; "log_analysis";
     "alert_investigation"; "ticket_investigation"; "general_question" ]}.

Definition classify_intent (query : string) : M string :=
  raw ← (intent_chain_invoke query, [EvClassify query]);
  let intent := PyStr.strip raw in
  let intent := PyStr.lower intent in
  let intent :=
    if bool_decide (intent ∉ allowed) then "runbook_lookup" else intent in
  mret intent.

(** *** chains/rag_chain.py *)

Definition generate_answer (query history : string)
    (service : option string) : M (string * list string) :=
  intent ← classify_intent query;
  docs ← route_query query intent service;
  let reference_ids := _extract_reference_ids docs in
  if negb (nonempty docs) then mret (NO_INFO, [])
  else
    context ← _build_context docs;
    response ← (rag_chain_invoke query context history,
                [EvGenerate query context history]);
    mret (response, reference_ids).

End Pipeline.

(** * Vocabulary for the statements *)

(** [put_if k o m] is [m] with [k] bound to [c] when [o = Some c]. *)
Definition put_if (k : string) (o : option constraint)
    (m : gmap string constraint) : gmap string constraint :=
  match o with
  | Some c => <[k := c]> m
  | None => m
  end.

(** The entry a usable [source_type] argument contributes to a filter. *)
Definition source_type_entry (source_type : option string)
  : option constraint :=
  s ← source_type; if decide (s = "") then None else Some (CVal (VStr s)).

(** The entry a usable [service] argument contributes to a filter. *)
Definition service_entry (service : option string) : option constraint :=
  s ← service;
  if decide (s = "" ∨ s = "unknown") then None else Some (CVal (VStr s)).

(** The filter [{"source_type": stype}] plus the service entry, if any. *)
Definition source_service_filter (stype : string) (service : option string)
  : gmap string constraint :=
  put_if "service" (service_entry service)
    {[ "source_type" := CVal (VStr stype) ]}.

(** The filter holding the service entry only; empty when there is none. *)
Definition service_only_filter (service : option string)
  : gmap string constraint :=
  put_if "service" (service_entry service) ∅.

(** What [get_filtered_retriever] puts in [search_kwargs] for a filter and
    a resolved result count: the filter is attached unless it is empty,
    and no score threshold is set. *)
Definition filtered_kwargs (k : Z) (flt : gmap string constraint)
  : search_kwargs :=
  mkKwargs k (if decide (flt = ∅) then None else Some flt) None.

(** One search of the runbook cascade: [k = 3], the source-type filter
    attached, no threshold. *)
Definition cascade_kwargs (stype : string) (service : option string)
  : search_kwargs :=
  mkKwargs 3 (Some (source_service_filter stype service)) None.

(** The result count the adapter hands on for a per-call [top_k]. *)
Definition resolved_k (top_k : option Z) : Z :=
  match top_k with
  | None => 5
  | Some n => if decide (n = 0) then 5 else n
  end.

(** The two-mode rule of the retrieval contract, read off a search: a
    search without a filter is a thresholded one, a search with a filter
    is a plain similarity search without threshold. *)
Definition follows_mode_rule (st : search_type) (kw : search_kwargs) : Prop :=
  match kw_filter kw with
  | None => st = similarity_score_threshold ∧ is_Some (kw_score_threshold kw)
  | Some _ => st = similarity ∧ kw_score_threshold kw = None
  end.

Definition event_follows_mode_rule (e : event) : Prop :=
  match e with
  | EvSearch st kw _ => follows_mode_rule st kw
  | _ => True
  end.

(** A plain similarity search for [q]: no score threshold, and a filter
    that, when attached, is not the empty mapping. *)
Definition plain_search_for (q : string) (e : event) : Prop :=
  ∃ kw, e = EvSearch similarity kw q
        ∧ kw_score_threshold kw = None
        ∧ kw_filter kw ≠ Some ∅.

Definition is_generate (e : event) : bool :=
  match e with
  | EvGenerate _ _ _ => true
  | _ => false
  end.

(** The six intent labels, in the order the prompt lists them. *)
Definition SIX_INTENTS : list string :=
  [ "runbook_lookup"; "incident_analysis"; "log_analysis";
    "alert_investigation"; "ticket_investigation"; "general_question" ].

(** [s] reads ["none"] or ["null"], whatever the case of its letters. *)
Definition reads_null (s : string) : Prop :=
  PyStr.lower s = "none" ∨ PyStr.lower s = "null".

#[global] Instance reads_null_dec s : Decision (reads_null s).
Proof. unfold reads_null. apply _. Defined.

(** The ["source"] entry of a metadata mapping, if there is one. *)
Definition md_source (md : option (gmap string value)) : option value :=
  m ← md; m !! "source".

Definition source_of (d : Document) : option value := md_source (metadata d).

(** A source entry that yields no reference: absent, falsy ([None], [""],
    [0], [False]), or text that is empty or reads none/null. *)
Definition excluded_source (o : option value) : Prop :=
  match o with
  | None => True
  | Some v => truthy v = false ∨ py_str v = "" ∨ reads_null (py_str v)
  end.

#[global] Instance excluded_source_dec o : Decision (excluded_source o).
Proof. destruct o; simpl; apply _. Defined.

(** The reference name a document contributes: the basename of its
    trimmed source text, unless the entry is excluded or that basename is
    empty or reads none/null. *)
Definition md_ref_name (md : option (gmap string value)) : option string :=
  v ← md_source md;
  if decide (excluded_source (Some v)) then None
  else
    let name := PyStr.basename (PyStr.strip (py_str v)) in
    if decide (name = "" ∨ reads_null name) then None else Some name.

Definition ref_name (d : Document) : option string :=
  md_ref_name (metadata d).

(** * Concrete collaborators for the examples *)

(** A store whose search answers from a table keyed by the ["source_type"]
    entry of the filter; searches without that entry read the row [""]. *)
Definition table_invoke (table : string → list Document)
    (_ : ()) (_ : search_type) (kw : search_kwargs) (_ : string)
  : result (list Document) :=
  match kw_filter kw with
  | Some f =>
      match f !! "source_type" with
      | Some (CVal (VStr s)) => Ok (table s)
      | _ => Ok (table "")
      end
  | None => Ok (table "")
  end.

Definition doc_with_source (src : string) : Document :=
  mkDocument "text" (Some {[ "source" := VStr src ]}).

Definition only_row (stype src : string) (row : string) : list Document :=
  if String.eqb row stype then [doc_with_source src] else [].

Definition no_documents (row : string) : list Document := [].

(** A classifier that always answers [label], and a generator that always
    answers [text]. *)
Definition const_intent (label : string) (_ : string) : result string :=
  Ok label.
Definition const_answer (text : string) (_ _ _ : string) : result string :=
  Ok text.

(** Seven runbook chunks, as an index that ignores the requested count
    would hand back. *)
Definition seven_documents : list Document :=
  [ doc_with_source "runbooks/a.txt"; doc_with_source "runbooks/b.txt";
    doc_with_source "runbooks/c.txt"; doc_with_source "runbooks/d.txt";
    doc_with_source "runbooks/e.txt"; doc_with_source "runbooks/f.txt";
    doc_with_source "runbooks/g.txt" ].

(** * Further code of the repository *)

(** ** retrieval/filters.py: convenience wrappers *)

Definition build_runbook_filter (service : option string)
  : gmap string constraint :=
  build_metadata_filter (Some "runbook") service None.

Definition build_incident_filter (service : option string)
  : gmap string constraint :=
  build_metadata_filter (Some "incident") service None.

Definition build_alert_filter (service : option string)
  : gmap string constraint :=
  build_metadata_filter (Some "alert") service None.

Definition build_ticket_filter (service : option string)
  : gmap string constraint :=
  build_metadata_filter (Some "ticket") service None.

Definition build_log_filter (service : option string)
  : gmap string constraint :=
  build_metadata_filter (Some "log") service None.

(** The ["source_type"] entry of the filter a search carries, if any. *)
Definition search_source_type (e : event) : option constraint :=
  match e with
  | EvSearch _ kw _ => f ← kw_filter kw; f !! "source_type"
  | _ => None
  end.

(** ** Vocabulary for the further properties *)

(** [s] consists of whitespace only (the empty string included). *)
Fixpoint blank (s : string) : bool :=
  match s with
  | EmptyString => true
  | String c s' => PyStr.isspace c && blank s'
  end.

(** The characters of a string, as a list. *)
Fixpoint chars (s : string) : list ascii :=
  match s with
  | EmptyString => []
  | String c s' => c :: chars s'
  end.

(** The last character of a string, if any. *)
Definition last_char (s : string) : option ascii := last (chars s).


(** The text one document stands for in the prompt context: the three
    labelled lines, with ["unknown"] for a missing entry, and the text of
    the chunk without its trailing whitespace. *)
Definition prompt_entry (d : Document) (key : string) : value :=
  default (VStr "unknown") (md ← metadata d; md !! key).

Definition prompt_block (d : Document) : string :=
  "Source: " ++ py_str (prompt_entry d "source_type")
  ++ NL ++ SP20 ++ "Service: " ++ py_str (prompt_entry d "service")
  ++ NL ++ SP20 ++ "Content:"
  ++ (if blank (page_content d) then ""
      else NL ++ SP20 ++ PyStr.rstrip (page_content d)).
(** ** app.py: conversation history *)

(** One entry of [chat_history]: the mapping
    [{"user": query, "assistant": answer_text}]. *)
Record Turn : Type := mkTurn {
  user : string;
  assistant : string;
}.

Definition MAX_HISTORY_TURNS : nat := 4.

(** [xs[-n:]] for a positive [n]: the last [n] elements, or all of them
    when there are fewer. *)
Definition last_n {A} (n : nat) (xs : list A) : list A :=
  drop (length xs - n) xs.

Definition format_history (history : list Turn) : string :=
  if negb (nonempty history) then "No prior conversation."
  else
    let lines :=
      foldl (λ lines h,
               (lines ++ [("User: " ++ user h)%string]
                      ++ [("Assistant: " ++ assistant h)%string])%list)
        [] (last_n MAX_HISTORY_TURNS history) in
    PyStr.join NL lines.

(** ** chains/structured_output.py and ui/app.py *)

Record SupportResponse : Type := mkSupportResponse {
  issue_summary : string;
  impacted_service : string;
  recommended_steps : list string;
  escalation_required : bool;
  confidence : string;
  reference_docs : list string;
}.

(** [structured.reference_docs = refs]. *)
Definition set_reference_docs (r : SupportResponse) (refs : list string)
  : SupportResponse :=
  mkSupportResponse (issue_summary r) (impacted_service r)
    (recommended_steps r) (escalation_required r) (confidence r) refs.

(** The calls a front end makes: those of the core pipeline, and the
    structuring call of [to_structured_response]. *)
Inductive app_event : Type :=
| AppCore (e : event)
| AppStructure (answer : string).

Definition App (A : Type) : Type := (result A * list app_event)%type.

#[export] Instance App_ret : MRet App := λ A a, (Ok a, []).
#[export] Instance App_bind : MBind App := λ A B f m,
  match m with
  | (Ok a, t) => let '(r, t') := f a in (r, (t ++ t')%list)
  | (Raise e, t) => (Raise e, t)
  end.

(** A computation of the core run inside a front end. *)
Definition lift {A} (m : M A) : App A := (m.1, AppCore <$> m.2).

(** The JSON bodies [ask] sends: [{"error": ...}], [{"message": ...}],
    or the six fields of a structured response. *)
Inductive json_body : Type :=
| JError (error : string)
| JMessage (message : string)
| JAnswer (r : SupportResponse).

Definition OUT_OF_SCOPE : string :=
  "I am an L2 production support assistant. " ++
  "Please ask questions related to production support issues.".

Section FrontEnd.

Context {VectorStore : Type}.
Variable load_vector_index : result VectorStore.
Variable retriever_invoke :
  VectorStore → search_type → search_kwargs → string → result (list Document).
Variable intent_chain_invoke : string → result string.
Variable rag_chain_invoke : string → string → string → result string.

(** [(STRUCTURED_PROMPT | llm | parser).invoke({"answer": answer})]. *)
Variable structured_chain_invoke : string → result SupportResponse.

(** [str(e)] for a caught exception. *)
Variable exc_text : exn → string.

Definition to_structured_response (answer : string) : App SupportResponse :=
  (structured_chain_invoke answer, [AppStructure answer]).

(** The body of the [try] block of [ask].  [request_json] is what
    [request.get_json()] gives: an exception, a JSON object, or [None]
    for a body that is not an object. *)
Definition ask_try (chat_history : list Turn)
    (request_json : result (option (gmap string value)))
  : App ((json_body * Z) * list Turn) :=
  data ← (request_json, []);
  raw ← match data with
        | Some m => mret (default (VStr "") (m !! "query"))
        | None => (Raise (PyExc "AttributeError"), [])
        end;
  query ← match raw with
          | VStr s => mret (PyStr.strip s)
          | _ => (Raise (PyExc "AttributeError"), [])
          end;
  if negb (truthy (VStr query)) then
    mret ((JError "Empty query", 400), chat_history)
  else
    intent ← lift (classify_intent intent_chain_invoke query);
    if String.eqb intent "general_question" then
      mret ((JMessage OUT_OF_SCOPE, 200), chat_history)
    else
      let history_text := format_history chat_history in
      '(answer_text, reference_docs) ←
        lift (generate_answer load_vector_index retriever_invoke
                intent_chain_invoke rag_chain_invoke
                query history_text None);
      structured ← to_structured_response answer_text;
      let structured := set_reference_docs structured reference_docs in
      let chat_history :=
        (chat_history ++ [mkTurn query answer_text])%list in
      mret ((JAnswer structured, 200), chat_history).

(** [ask]: the response (body and status), the history afterwards, and
    the collaborator calls made. *)
Definition ask (chat_history : list Turn)
    (request_json : result (option (gmap string value)))
  : ((json_body * Z) * list Turn) * list app_event :=
  match ask_try chat_history request_json with
  | (Ok r, t) => (r, t)
  | (Raise e, t) => (((JError (exc_text e), 500), chat_history), t)
  end.

End FrontEnd.

(** The query text [ask] works on: the ["query"] entry of the JSON
    object, the empty string when the key is absent, trimmed.  There is
    none when the body could not be read, is not an object, or holds
    something that is not a string under ["query"]. *)
Definition request_query
    (request_json : result (option (gmap string value))) : option string :=
  match request_json with
  | Ok (Some m) =>
      match default (VStr "") (m !! "query") with
      | VStr s => Some (PyStr.strip s)
      | _ => None
      end
  | _ => None
  end.

(** The exception met while reading the query, if any. *)
Definition request_error
    (request_json : result (option (gmap string value))) : option exn :=
  match request_json with
  | Raise e => Some e
  | Ok None => Some (PyExc "AttributeError")
  | Ok (Some m) =>
      match default (VStr "") (m !! "query") with
      | VStr _ => None
      | _ => Some (PyExc "AttributeError")
      end
  end.

(** [ask_try] once the query text has been read. *)
Definition ask_query {VectorStore : Type}
    (load_vector_index : result VectorStore)
    (retriever_invoke :
       VectorStore → search_type → search_kwargs → string →
       result (list Document))
    (intent_chain_invoke : string → result string)
    (rag_chain_invoke : string → string → string → result string)
    (structured_chain_invoke : string → result SupportResponse)
    (chat_history : list Turn) (query : string)
  : App ((json_body * Z) * list Turn) :=
  if negb (truthy (VStr query)) then
    mret ((JError "Empty query", 400), chat_history)
  else
    intent ← lift (classify_intent intent_chain_invoke query);
    if String.eqb intent "general_question" then
      mret ((JMessage OUT_OF_SCOPE, 200), chat_history)
    else
      '(answer_text, refs) ←
        lift (generate_answer load_vector_index retriever_invoke
                intent_chain_invoke rag_chain_invoke
                query (format_history chat_history) None);
      structured ← to_structured_response structured_chain_invoke answer_text;
      mret ((JAnswer (set_reference_docs structured refs), 200),
            (chat_history ++ [mkTurn query answer_text])%list).

(** The history left by a run of requests served one after the other,
    each [ask] starting from the history the previous one left. *)
Definition serve {VectorStore : Type}
    (load_vector_index : result VectorStore)
    (retriever_invoke :
       VectorStore → search_type → search_kwargs → string →
       result (list Document))
    (intent_chain_invoke : string → result string)
    (rag_chain_invoke : string → string → string → result string)
    (structured_chain_invoke : string → result SupportResponse)
    (exc_text : exn → string)
    (chat_history : list Turn)
    (requests : list (result (option (gmap string value))))
  : list Turn :=
  foldl (λ h request,
           (ask load_vector_index retriever_invoke intent_chain_invoke
              rag_chain_invoke structured_chain_invoke exc_text
              h request).1.2)
    chat_history requests.

(** ** ingestion/loaders.py: metadata enrichment *)

Module PyFmt.

(** [s.rstrip(c)] for a one-character argument: every trailing [c] goes. *)
Fixpoint rstrip_char (c : ascii) (s : string) : string :=
  match s with
  | EmptyString => EmptyString
  | String a s' =>
      match rstrip_char c s' with
      | EmptyString => if Ascii.eqb a c then EmptyString else String a EmptyString
      | r => String a r
      end
  end.

(** [n] copies of ["0"]. *)
Fixpoint zeros (n : nat) : string :=
  match n with
  | O => EmptyString
  | S n' => String "0"%char (zeros n')
  end.

(** [format(z, "04d")]: the decimal digits padded with zeros to width
    four, the sign counting for the width. *)
Definition format_04d (z : Z) : string :=
  if z <? 0 then
    let digits := PyStr.of_int (- z) in
    "-" ++ zeros (3 - String.length digits) ++ digits
  else
    let digits := PyStr.of_int z in
    zeros (4 - String.length digits) ++ digits.

End PyFmt.

(** [SOURCE_PRIORITY], keyed by data folder. *)
Definition SOURCE_PRIORITY : gmap string Z :=
  {[ "runbooks" := 1; "alerts" := 2; "incidents" := 3;
     "tickets" := 4; "logs" := 5 ]}.

Definition ENVIRONMENT_DEFAULT : string := "prod".

Section Ingestion.

(** [re.search(pattern, text, re.IGNORECASE)], reduced to what the code
    reads from it: [None] when there is no match, else [match.group(1)]. *)
Variable re_search_group1 : string → string → option string.

(** [datetime.utcnow().isoformat()]. *)
Variable utcnow_isoformat : string.

Definition extract_field (pattern text default : string) : string :=
  match re_search_group1 pattern text with
  | Some group1 => PyStr.strip group1
  | None => default
  end.

(** [doc.metadata.update(metadata)] keeps the entries of the document
    that [metadata] does not redefine; the document is returned. *)
Definition enrich_metadata (doc : Document) (source_folder : string)
    (doc_index : Z) : result Document :=
  let content := page_content doc in
  let source_type := PyFmt.rstrip_char "s" source_folder in
  match SOURCE_PRIORITY !! source_folder with
  | None => Raise (PyExc "KeyError")
  | Some priority =>
      let md : gmap string value :=
        {[ "doc_id" :=
             VStr (source_type ++ "_" ++ PyFmt.format_04d doc_index);
           "source_type" := VStr source_type;
           "environment" := VStr ENVIRONMENT_DEFAULT;
           "priority_order" := VInt priority;
           "ingestion_time" := VStr utcnow_isoformat;
           "service" :=
             VStr (extract_field "Service:\s*(.*)" content "unknown") ]} in
      let md :=
        if String.eqb source_type "runbook" then
          <["owner_team" :=
              VStr (extract_field "Owner Team:\s*(.*)" content "unknown")]>
            (<["severity" :=
                 VStr (extract_field "Severity:\s*(.*)" content "unknown")]>
               md)
        else if String.eqb source_type "incident" then
          <["region" :=
              VStr (extract_field "Region:\s*(.*)" content "unknown")]>
            (<["incident_id" :=
                 VStr (extract_field "Incident ID:\s*(.*)" content
                         "unknown")]>
               md)
        else if String.eqb source_type "alert" then
          <["severity" :=
              VStr (extract_field "Severity:\s*(.*)" content "unknown")]>
            (<["alert_id" :=
                 VStr (extract_field "Alert ID:\s*(.*)" content "unknown")]>
               md)
        else if String.eqb source_type "ticket" then
          <["assigned_group" :=
              VStr (extract_field "Assigned Group:\s*(.*)" content
                      "unknown")]>
            (<["ticket_id" :=
                 VStr (extract_field "Ticket ID:\s*(.*)" content "unknown")]>
               md)
        else if String.eqb source_type "log" then
          <["log_type" := VStr "application"]> md
        else md in
      match metadata doc with
      | None => Raise (PyExc "AttributeError")
      | Some old => Ok (mkDocument content (Some (md ∪ old)))
      end
  end.

End Ingestion.

(** ** ingestion/chunking.py: the splitter cache *)

(** What a [RecursiveCharacterTextSplitter] is built from. *)
Record Splitter : Type := mkSplitter {
  chunk_size : Z;
  chunk_overlap : Z;
  separators : list string;
}.

#[global] Instance Splitter_eq_dec : EqDecision Splitter.
Proof. solve_decision. Defined.

(** [SPLITTER_CONFIG], as (chunk size, overlap). *)
Definition SPLITTER_CONFIG : gmap string (Z * Z) :=
  {[ "runbook" := (900, 150); "alert" := (500, 80);
     "incident" := (800, 120); "ticket" := (700, 120);
     "log" := (300, 50) ]}.

(** [get_splitter], with the module-level [_splitter_cache] passed in
    and handed back. *)
Definition get_splitter (source_type : string)
    (_splitter_cache : gmap string Splitter)
  : Splitter * gmap string Splitter :=
  let _splitter_cache :=
    if bool_decide (source_type ∉ dom _splitter_cache) then
      let cfg := default (700, 100) (SPLITTER_CONFIG !! source_type) in
      <[source_type :=
          mkSplitter cfg.1 cfg.2 [NL ++ NL; NL; " "; ""]]> _splitter_cache
    else _splitter_cache in
  (default (mkSplitter 0 0 []) (_splitter_cache !! source_type),
   _splitter_cache).

(** The splitter [get_splitter] builds for a source type on a miss. *)
Definition configured_splitter (source_type : string) : Splitter :=
  let cfg := default (700, 100) (SPLITTER_CONFIG !! source_type) in
  mkSplitter cfg.1 cfg.2 [NL ++ NL; NL; " "; ""].

(** Every cached splitter is the one configured for its key. *)
Definition cache_coherent (cache : gmap string Splitter) : Prop :=
  map_Forall (λ k s, s = configured_splitter k) cache.

(** ** Concrete collaborators for the front-end examples *)

(** A structuring collaborator that always answers the same response,
    with a reference list of its own invention. *)
Definition guessed_response : SupportResponse :=
  mkSupportResponse "Disk usage spike" "storage"
    ["Check the mount"; "Rotate the logs"] false "medium"
    ["made_up_runbook.txt"].

Definition const_structured (_ : string) : result SupportResponse :=
  Ok guessed_response.

Definition exn_name (e : exn) : string :=
  match e with PyExc name => name end.

(** A JSON request body [{"query": q}]. *)
Definition query_json (q : string) : result (option (gmap string value)) :=
  Ok (Some {[ "query" := VStr q ]}).


(** Seven runbook chunks, each with a text of its own. *)
Definition chunk (src text : string) : Document :=
  mkDocument text
    (Some {[ "source" := VStr src; "source_type" := VStr "runbook" ]}).

Definition seven_chunks : list Document :=
  [ chunk "runbooks/a.txt" "step a"; chunk "runbooks/b.txt" "step b";
    chunk "runbooks/c.txt" "step c"; chunk "runbooks/d.txt" "step d";
    chunk "runbooks/e.txt" "step e"; chunk "runbooks/f.txt" "step f";
    chunk "runbooks/g.txt" "step g" ].
(** * Properties *)

(** ** Strings *)

Module PyStrFacts.
Import PyStr.

Lemma isspace_lower_char c : isspace (lower_char c) = isspace c.
Proof. by destruct c as [[] [] [] [] [] [] [] []]. Qed.

Lemma lower_empty_iff s : lower s = "" ↔ s = "".
Proof. by destruct s. Qed.

Lemma lstrip_lower s : lstrip (lower s) = lower (lstrip s).
Proof.
  induction s as [|c s IH]; simpl; [done|].
  rewrite isspace_lower_char. by destruct (isspace c).
Qed.

Lemma rstrip_lower s : rstrip (lower s) = lower (rstrip s).
Proof.
  induction s as [|c s IH]; simpl; [done|].
  rewrite IH, isspace_lower_char.
  destruct (rstrip s) as [|c' r]; simpl; [|done].
  by destruct (isspace c).
Qed.

(** Trimming and lower-casing commute, so "lower-case and trim" names
    one normal form whichever is done first. *)
Lemma strip_lower s : strip (lower s) = lower (strip s).
Proof. unfold strip. by rewrite lstrip_lower, rstrip_lower. Qed.

End PyStrFacts.

(** ** The order used by [sorted] *)

Module PyOrd.

Lemma ascii_compare_refl c : Ascii.compare c c = Eq.
Proof. apply N.compare_refl. Qed.

Lemma compare_refl s : String.compare s s = Eq.
Proof.
  induction s as [|c s IH]; simpl; [done|].
  by rewrite ascii_compare_refl.
Qed.

Lemma compare_Lt_trans s1 s2 s3 :
  String.compare s1 s2 = Lt → String.compare s2 s3 = Lt →
  String.compare s1 s3 = Lt.
Proof.
  revert s2 s3.
  induction s1 as [|c1 s1 IH]; intros [|c2 s2] [|c3 s3]; simpl; try done.
  unfold Ascii.compare.
  destruct (N.compare_spec (N_of_ascii c1) (N_of_ascii c2)) as [E12|L12|G12];
    destruct (N.compare_spec (N_of_ascii c2) (N_of_ascii c3)) as [E23|L23|G23];
    try done; intros H12 H23.
  - rewrite E12, E23, N.compare_refl. by eapply IH.
  - rewrite E12. by apply N.compare_lt_iff in L23 as ->.
  - rewrite <- E23. by apply N.compare_lt_iff in L12 as ->.
  - assert (N_of_ascii c1 < N_of_ascii c3)%N as L13 by lia.
    by apply N.compare_lt_iff in L13 as ->.
Qed.

#[global] Instance le_total : Total PyStr.le.
Proof. intros a b. apply String.leb_total. Qed.

#[global] Instance lt_trans : Transitive PyStr.lt.
Proof.
  intros a b c. unfold PyStr.lt, String.ltb.
  destruct (String.compare a b) eqn:Hab; try done.
  destruct (String.compare b c) eqn:Hbc; try done.
  by rewrite (compare_Lt_trans a b c).
Qed.

#[global] Instance lt_irrefl : Irreflexive PyStr.lt.
Proof.
  intros a H. unfold PyStr.lt, String.ltb in H.
  by rewrite compare_refl in H.
Qed.

Lemma le_neq_lt a b : PyStr.le a b → a ≠ b → PyStr.lt a b.
Proof.
  unfold PyStr.le, PyStr.lt, String.leb, String.ltb.
  destruct (String.compare a b) eqn:Hab; try done.
  intros _ Hne. by apply String.compare_eq_iff in Hab.
Qed.

(** A list sorted for [<=] without repetitions is sorted for [<]. *)
Lemma Sorted_le_NoDup_lt (l : list string) :
  Sorted PyStr.le l → NoDup l → StronglySorted PyStr.lt l.
Proof.
  intros Hs Hn. apply Sorted_StronglySorted; [apply _|].
  induction Hs as [|a l Hs IH Hhd]; [constructor|].
  apply NoDup_cons in Hn as [Hnotin Hn].
  constructor; [by apply IH|].
  destruct Hhd as [|b l Hab]; constructor.
  apply le_neq_lt; [done|]. intros ->. apply Hnotin. by left.
Qed.

End PyOrd.

(** ** The call-logging monad *)

Lemma bind_Ok {A B} (a : A) (t : list event) (f : A → M B) :
  ((Ok a, t) : M A) ≫= f = ((f a).1, (t ++ (f a).2)%list).
Proof. unfold mbind, M_bind. by destruct (f a). Qed.

Lemma calls_bind {A B} (m : M A) (f : A → M B) :
  calls (m ≫= f) =
  match outcome m with
  | Ok a => (calls m ++ calls (f a))%list
  | Raise _ => calls m
  end.
Proof.
  destruct m as [[a|e] t]; [|done].
  by rewrite bind_Ok.
Qed.

Lemma outcome_bind {A B} (m : M A) (f : A → M B) :
  outcome (m ≫= f) =
  match outcome m with
  | Ok a => outcome (f a)
  | Raise e => Raise e
  end.
Proof.
  destruct m as [[a|e] t]; [|done].
  by rewrite bind_Ok.
Qed.

(** ** retrieval/filters.py *)

Lemma lookup_put_if k o m j :
  put_if k o m !! j =
  if decide (k = j)
  then match o with Some c => Some c | None => m !! j end
  else m !! j.
Proof. destruct o; simpl; [apply lookup_insert|by case_decide; subst]. Qed.

Lemma build_metadata_filter_unfold source_type service max_priority :
  build_metadata_filter source_type service max_priority =
  put_if "priority_order" (CLte <$> max_priority)
    (put_if "service" (service_entry service)
       (put_if "source_type" (source_type_entry source_type) ∅)).
Proof.
  unfold build_metadata_filter, source_type_entry, service_entry.
  destruct source_type as [s|], service as [v|], max_priority as [n|]; simpl;
    repeat match goal with
    | |- context [String.eqb ?a ?b] => destruct (String.eqb_spec a b)
    end; simpl; repeat destruct (decide _); try done; intuition congruence.
Qed.

(** C7. [build_metadata_filter] is a total function of its three optional
    inputs.  The ["source_type"] key is present exactly when [source_type]
    is a non-empty string; the ["service"] key exactly when [service] is a
    non-empty string other than ["unknown"]; the ["priority_order"] key
    exactly when [max_priority] is given (zero included), and then it holds
    the range mapping [{"$lte": max_priority}], not the bare number.  No
    other key is emitted and no key is bound to [None]. *)
Theorem build_metadata_filter_keys
    (source_type service : option string) (max_priority : option Z) :
  let flt := build_metadata_filter source_type service max_priority in
  flt !! "source_type" =
    (s ← source_type;
     if decide (s = "") then None else Some (CVal (VStr s)))
  ∧ flt !! "service" =
    (s ← service;
     if decide (s = "" ∨ s = "unknown") then None else Some (CVal (VStr s)))
  ∧ flt !! "priority_order" = (n ← max_priority; Some (CLte n))
  ∧ dom flt ⊆ {[ "source_type"; "service"; "priority_order" ]}
  ∧ map_Forall (λ _ c, c ≠ CVal VNone) flt.
Proof.
  intros flt. subst flt. rewrite build_metadata_filter_unfold.
  fold (source_type_entry source_type) (service_entry service).
  repeat split.
  - rewrite !lookup_put_if. repeat case_decide; try done.
    by destruct (source_type_entry source_type).
  - rewrite !lookup_put_if. repeat case_decide; try done.
    by destruct (service_entry service).
  - rewrite !lookup_put_if. repeat case_decide; try done.
    by destruct max_priority.
  - intros k [c Hk]%elem_of_dom. rewrite !lookup_put_if in Hk.
    repeat case_decide; subst; set_solver.
  - intros k c Hk. rewrite !lookup_put_if in Hk.
    unfold source_type_entry, service_entry in Hk.
    destruct source_type as [s|], service as [v|], max_priority as [n|];
      simpl in Hk; repeat case_decide; simplify_eq; try done.
Qed.

(** ** retrieval/retrievers.py *)

Section RetrieverFacts.

Context {VectorStore : Type}.
Variable load_vector_index : result VectorStore.
Variable retriever_invoke :
  VectorStore → search_type → search_kwargs → string → result (list Document).

Lemma top_k_or_default_resolved top_k :
  top_k_or_default top_k = resolved_k top_k.
Proof.
  destruct top_k as [n|]; simpl; [|done].
  destruct (Z.eqb_spec n 0); by case_decide.
Qed.

Lemma get_base_retriever_run (vs : VectorStore) top_k :
  get_base_retriever (Ok vs) top_k =
  (Ok (mkRetriever vs similarity_score_threshold
         (mkKwargs (resolved_k top_k) None (Some (3 # 4)%Q))), []).
Proof.
  unfold get_base_retriever. by rewrite top_k_or_default_resolved.
Qed.

Lemma get_filtered_retriever_run (vs : VectorStore) flt top_k :
  get_filtered_retriever (Ok vs) (Some flt) top_k =
  (Ok (mkRetriever vs similarity
         (filtered_kwargs (resolved_k top_k) flt)), []).
Proof.
  unfold get_filtered_retriever, filtered_kwargs.
  rewrite top_k_or_default_resolved. simpl.
  case_bool_decide; case_decide; done.
Qed.

Lemma get_filtered_retriever_none (vs : VectorStore) top_k :
  get_filtered_retriever (Ok vs) None top_k =
  (Ok (mkRetriever vs similarity (mkKwargs (resolved_k top_k) None None)),
   []).
Proof.
  unfold get_filtered_retriever. by rewrite top_k_or_default_resolved.
Qed.

Lemma retrieve_with_filter_run q flt top_k :
  _retrieve_with_filter load_vector_index retriever_invoke q flt top_k =
  match load_vector_index with
  | Ok vs =>
      let kw := filtered_kwargs (resolved_k top_k) flt in
      (retriever_invoke vs similarity kw q, [EvSearch similarity kw q])
  | Raise e => (Raise e, [])
  end.
Proof.
  unfold _retrieve_with_filter.
  destruct load_vector_index as [vs|e]; [|done].
  rewrite get_filtered_retriever_run. simpl.
  by destruct (retriever_invoke _ _ _ _).
Qed.

End RetrieverFacts.

(** C9, as the code has it.  The result count handed to the index is the
    fixed default 5 when no per-call [top_k] is given and also when the
    given [top_k] is 0; every other supplied value is passed on unchanged.
    Both retriever constructors resolve it the same way. *)
Theorem top_k_resolution {VectorStore : Type} (vs : VectorStore)
    (metadata_filter : option (gmap string constraint)) (top_k : option Z) :
  ∃ rb rf,
    get_base_retriever (Ok vs) top_k = (Ok rb, [])
    ∧ get_filtered_retriever (Ok vs) metadata_filter top_k = (Ok rf, [])
    ∧ kw_k (r_search_kwargs rb) = kw_k (r_search_kwargs rf)
    ∧ (top_k = None → kw_k (r_search_kwargs rf) = 5)
    ∧ (top_k = Some 0 → kw_k (r_search_kwargs rf) = 5)
    ∧ (∀ n, top_k = Some n → n ≠ 0 → kw_k (r_search_kwargs rf) = n).
Proof.
  eexists _, (mkRetriever vs similarity
                (mkKwargs (resolved_k top_k)
                   (f ← metadata_filter;
                    if decide (f = ∅) then None else Some f) None)).
  split_and!.
  - by rewrite get_base_retriever_run.
  - destruct metadata_filter as [flt|].
    + by rewrite get_filtered_retriever_run.
    + by rewrite get_filtered_retriever_none.
  - done.
  - by intros ->.
  - by intros ->.
  - intros n -> Hn. simpl. by case_decide.
Qed.

(** A supplied [top_k] of 0 does not override the default: the retriever
    is built with [k = 5]. *)
Lemma top_k_zero_not_passed_on :
  ∃ r, get_filtered_retriever (Ok ()) None (Some 0) = (Ok r, [])
       ∧ kw_k (r_search_kwargs r) = 5
       ∧ kw_k (r_search_kwargs r) ≠ 0.
Proof. eexists. split; [reflexivity|]. by simpl. Qed.

Lemma top_k_resolution_witness :
  ∃ r, get_filtered_retriever (Ok ()) (Some ∅) (Some 3) = (Ok r, [])
       ∧ kw_k (r_search_kwargs r) = 3.
Proof.
  destruct (top_k_resolution () (Some ∅) (Some 3))
    as (rb & rf & _ & Hf & _ & _ & _ & Hn).
  exists rf. split; [exact Hf|].
  apply (Hn 3); [reflexivity|lia].
Defined.

(** ** retrieval/routing.py *)

Lemma source_service_filter_build stype service :
  stype ≠ "" →
  build_metadata_filter (Some stype) service None =
  source_service_filter stype service.
Proof.
  intros Hne. rewrite build_metadata_filter_unfold.
  unfold source_service_filter, source_type_entry. simpl.
  by case_decide.
Qed.

Lemma service_only_filter_build service :
  build_metadata_filter None service None = service_only_filter service.
Proof. by rewrite build_metadata_filter_unfold. Qed.

Lemma source_service_filter_nonempty stype service :
  source_service_filter stype service ≠ ∅.
Proof.
  intros Heq. apply (f_equal (λ m, m !! "source_type")) in Heq.
  unfold source_service_filter in Heq.
  rewrite lookup_put_if, lookup_empty in Heq.
  case_decide; [done|]. by rewrite lookup_singleton_eq in Heq.
Qed.

Lemma filtered_kwargs_source k stype service :
  filtered_kwargs k (source_service_filter stype service) =
  mkKwargs k (Some (source_service_filter stype service)) None.
Proof.
  unfold filtered_kwargs. case_decide; [|done].
  by destruct (source_service_filter_nonempty stype service).
Qed.

Section RoutingFacts.

Context {VectorStore : Type}.
Variable vs : VectorStore.
Variable retriever_invoke :
  VectorStore → search_type → search_kwargs → string → result (list Document).

Lemma retrieve_source_run q stype service top_k :
  stype ≠ "" →
  _retrieve_with_filter (Ok vs) retriever_invoke q
    (build_metadata_filter (Some stype) service None) top_k =
  let kw := mkKwargs (resolved_k top_k)
              (Some (source_service_filter stype service)) None in
  (retriever_invoke vs similarity kw q, [EvSearch similarity kw q]).
Proof.
  intros Hne. rewrite retrieve_with_filter_run.
  by rewrite source_service_filter_build, filtered_kwargs_source.
Qed.

End RoutingFacts.

(** C1. With intent [runbook_lookup] and the index loaded, [route_query]
    runs the cascade.  It searches with the filter
    [{"source_type": "runbook"}] (plus the service entry) and [k = 3]; a
    non-empty result is returned as it is and nothing else is searched.
    Otherwise it does the same for ["alert"], and otherwise it returns
    whatever the ["incident"] search gives, empty or not.  The log of
    collaborator calls lists exactly these searches, so no ticket or log
    search is ever issued. *)
Theorem route_runbook_lookup_cascade {VectorStore : Type} (vs : VectorStore)
    (retriever_invoke :
       VectorStore → search_type → search_kwargs → string →
       result (list Document))
    (q : string) (service : option string) :
  let search stype :=
    retriever_invoke vs similarity (cascade_kwargs stype service) q in
  let ev stype := EvSearch similarity (cascade_kwargs stype service) q in
  let run := route_query (Ok vs) retriever_invoke q "runbook_lookup" service in
  (∀ d ds, search "runbook" = Ok (d :: ds) →
     run = (Ok (d :: ds), [ev "runbook"]))
  ∧ (∀ d ds, search "runbook" = Ok [] → search "alert" = Ok (d :: ds) →
       run = (Ok (d :: ds), [ev "runbook"; ev "alert"]))
  ∧ (search "runbook" = Ok [] → search "alert" = Ok [] →
       run = (search "incident", [ev "runbook"; ev "alert"; ev "incident"])).
Proof.
  intros search ev run. subst run.
  unfold route_query. simpl String.eqb. cbv iota.
  unfold route_runbook_first.
  rewrite !retrieve_source_run by done.
  change (resolved_k (Some RUNBOOK_TOP_K)) with 3.
  change (resolved_k (Some ALERT_TOP_K)) with 3.
  change (resolved_k (Some INCIDENT_TOP_K)) with 3.
  fold (cascade_kwargs "runbook" service) (cascade_kwargs "alert" service)
       (cascade_kwargs "incident" service).
  cbv zeta.
  fold (search "runbook") (search "alert") (search "incident")
       (ev "runbook") (ev "alert") (ev "incident").
  split_and!.
  - intros d ds ->. by rewrite bind_Ok.
  - intros d ds -> ->. by rewrite !bind_Ok.
  - intros -> ->. rewrite !bind_Ok. simpl.
    by destruct (search "incident").
Qed.

Lemma route_runbook_lookup_cascade_witness :
  let q := "db pool exhausted" in
  let svc := Some "trading-db" in
  let ev stype := EvSearch similarity (cascade_kwargs stype svc) q in
  route_query (Ok ()) (table_invoke (only_row "runbook" "runbooks/db_pool.txt"))
    q "runbook_lookup" svc =
  (Ok [doc_with_source "runbooks/db_pool.txt"], [ev "runbook"])
  ∧ route_query (Ok ()) (table_invoke (only_row "alert" "alerts/db_conn.txt"))
      q "runbook_lookup" svc =
    (Ok [doc_with_source "alerts/db_conn.txt"], [ev "runbook"; ev "alert"])
  ∧ route_query (Ok ()) (table_invoke (only_row "incident" "incidents/inc_7.txt"))
      q "runbook_lookup" svc =
    (Ok [doc_with_source "incidents/inc_7.txt"],
     [ev "runbook"; ev "alert"; ev "incident"])
  ∧ route_query (Ok ()) (table_invoke no_documents) q "runbook_lookup" svc =
    (Ok [], [ev "runbook"; ev "alert"; ev "incident"]).
Proof.
  intros q svc ev. split_and!.
  - apply (proj1 (route_runbook_lookup_cascade ()
             (table_invoke (only_row "runbook" "runbooks/db_pool.txt")) q svc)).
    reflexivity.
  - apply (proj1 (proj2 (route_runbook_lookup_cascade ()
             (table_invoke (only_row "alert" "alerts/db_conn.txt")) q svc)));
      reflexivity.
  - apply (proj2 (proj2 (route_runbook_lookup_cascade ()
             (table_invoke (only_row "incident" "incidents/inc_7.txt")) q svc)));
      reflexivity.
  - apply (proj2 (proj2 (route_runbook_lookup_cascade ()
             (table_invoke no_documents) q svc))); reflexivity.
Defined.

Lemma plain_search_filtered k flt q :
  plain_search_for q (EvSearch similarity (filtered_kwargs k flt) q).
Proof.
  eexists. split; [done|]. split; [done|].
  unfold filtered_kwargs. simpl. case_decide; congruence.
Qed.

Lemma retrieve_with_filter_plain {VectorStore : Type}
    (load_vector_index : result VectorStore) retriever_invoke q flt top_k :
  Forall (plain_search_for q)
    (calls (_retrieve_with_filter load_vector_index retriever_invoke
              q flt top_k)).
Proof.
  rewrite retrieve_with_filter_run.
  destruct load_vector_index as [vs|e]; simpl; [|constructor].
  repeat constructor. apply plain_search_filtered.
Qed.

Lemma route_query_default_run {VectorStore : Type} (vs : VectorStore)
    (retriever_invoke :
       VectorStore → search_type → search_kwargs → string →
       result (list Document))
    (q intent : string) (service : option string) :
  intent ≠ "runbook_lookup" → intent ≠ "incident_analysis" →
  intent ≠ "log_analysis" →
  route_query (Ok vs) retriever_invoke q intent service =
  let kw := mkKwargs 5
              (c ← service_entry service; Some {[ "service" := c ]}) None in
  (retriever_invoke vs similarity kw q, [EvSearch similarity kw q]).
Proof.
  intros H1 H2 H3. unfold route_query.
  rewrite (proj2 (String.eqb_neq _ _) H1), (proj2 (String.eqb_neq _ _) H2),
    (proj2 (String.eqb_neq _ _) H3).
  rewrite retrieve_with_filter_run, service_only_filter_build.
  unfold filtered_kwargs, service_only_filter.
  destruct (service_entry service) as [c|] eqn:Hc; simpl.
  - case_decide as Hempty; [|by rewrite insert_empty].
    apply (f_equal (λ m, m !! "service")) in Hempty.
    by rewrite lookup_insert_eq, lookup_empty in Hempty.
  - by case_decide.
Qed.

(** C3. With the index loaded, every intent other than [runbook_lookup]
    makes [route_query] issue exactly one search, with the default
    [k = 5], and return its outcome: for [incident_analysis] the filter
    is [{"source_type": "incident"}] plus the service entry, for
    [log_analysis] it is [{"source_type": "log"}] plus the service entry,
    and for any other string the only possible filter entry is the
    service one, with no ["source_type"] key (and no filter at all when
    there is no usable service). *)
Theorem route_query_single_search {VectorStore : Type} (vs : VectorStore)
    (retriever_invoke :
       VectorStore → search_type → search_kwargs → string →
       result (list Document))
    (q intent : string) (service : option string) :
  let one kw :=
    (retriever_invoke vs similarity kw q, [EvSearch similarity kw q]) in
  let run := route_query (Ok vs) retriever_invoke q intent service in
  (intent = "incident_analysis" →
     run = one (mkKwargs 5
                  (Some (source_service_filter "incident" service)) None))
  ∧ (intent = "log_analysis" →
       run = one (mkKwargs 5
                    (Some (source_service_filter "log" service)) None))
  ∧ (intent ≠ "runbook_lookup" → intent ≠ "incident_analysis" →
     intent ≠ "log_analysis" →
       run = one (mkKwargs 5
                    (c ← service_entry service; Some {[ "service" := c ]})
                    None)).
Proof.
  intros one run. subst run. split_and!.
  - intros ->. unfold route_query. simpl String.eqb. cbv iota.
    by rewrite retrieve_source_run.
  - intros ->. unfold route_query. simpl String.eqb. cbv iota.
    by rewrite retrieve_source_run.
  - intros H1 H2 H3. by rewrite route_query_default_run.
Qed.

Lemma route_query_single_search_witness :
  let q := "settlement queue depth high" in
  let svc := Some "settlement" in
  let inv := table_invoke (only_row "log" "logs/app.log") in
  let one kw := (inv () similarity kw q, [EvSearch similarity kw q]) in
  route_query (Ok ()) inv q "incident_analysis" svc =
    one (mkKwargs 5 (Some (source_service_filter "incident" svc)) None)
  ∧ route_query (Ok ()) inv q "log_analysis" svc =
    one (mkKwargs 5 (Some (source_service_filter "log" svc)) None)
  ∧ route_query (Ok ()) inv q "alert_investigation" svc =
    one (mkKwargs 5 (Some {[ "service" := CVal (VStr "settlement") ]}) None).
Proof.
  intros q svc inv one. split_and!.
  - by apply (proj1 (route_query_single_search () inv q
                       "incident_analysis" svc)).
  - by apply (proj1 (proj2 (route_query_single_search () inv q
                              "log_analysis" svc))).
  - by apply (proj2 (proj2 (route_query_single_search () inv q
                              "alert_investigation" svc))).
Defined.

Lemma route_query_plain {VectorStore : Type}
    (load_vector_index : result VectorStore) retriever_invoke q intent service :
  Forall (plain_search_for q)
    (calls (route_query load_vector_index retriever_invoke q intent service)).
Proof.
  unfold route_query.
  repeat case_match; try apply retrieve_with_filter_plain.
  unfold route_runbook_first.
  repeat (rewrite calls_bind; case_match;
          [|by apply retrieve_with_filter_plain];
          apply Forall_app; split;
          [by apply retrieve_with_filter_plain|];
          try case_match; try by constructor).
Qed.

(** Every search of the Router asks for three or for five documents. *)
Lemma route_query_result_count {VectorStore : Type}
    (load_vector_index : result VectorStore) retriever_invoke
    q intent service :
  Forall (λ e, ∃ kw, e = EvSearch similarity kw q
                     ∧ (kw_k kw = 3 ∨ kw_k kw = 5))
    (calls (route_query load_vector_index retriever_invoke q intent service)).
Proof.
  assert (∀ flt top_k, top_k = None ∨ top_k = Some 3 →
    Forall (λ e, ∃ kw, e = EvSearch similarity kw q
                       ∧ (kw_k kw = 3 ∨ kw_k kw = 5))
      (calls (_retrieve_with_filter load_vector_index retriever_invoke
                q flt top_k))) as Hone.
  { intros flt top_k Hk. rewrite retrieve_with_filter_run.
    destruct load_vector_index as [vs|e]; simpl; [|constructor].
    repeat constructor. eexists. split; [done|].
    destruct Hk as [-> | ->]; simpl; auto. }
  unfold route_query.
  repeat case_match; try (apply Hone; by left).
  unfold route_runbook_first.
  repeat (rewrite calls_bind; case_match;
          [|apply Hone; by right];
          apply Forall_app; split;
          [apply Hone; by right|];
          try case_match; try by constructor).
Qed.


(** The broad default branch without a usable service issues a search
    that has neither a filter nor a score threshold, which the two-mode
    rule does not allow. *)
Lemma broad_search_breaks_mode_rule :
  ¬ Forall event_follows_mode_rule
      (calls (route_query (Ok ()) (table_invoke no_documents)
                "what is the weather today?" "general_question" None)).
Proof.
  intros H. apply Forall_cons in H as [[Hst _] _]. discriminate Hst.
Qed.

(** C8, as the code has it.  The adapter builds two kinds of retriever.
    [get_base_retriever] is a thresholded similarity search (threshold
    0.75) without filter.  [get_filtered_retriever] is a plain similarity
    search without threshold, to which the filter is attached only when
    one is given and is not empty.  Every search the Router issues is of
    the second kind, whatever the intent; in the broad default branch
    with no usable service the search carries neither a filter nor a
    threshold. *)
Theorem retrieval_modes {VectorStore : Type} (vs : VectorStore)
    (load_vector_index : result VectorStore)
    (retriever_invoke :
       VectorStore → search_type → search_kwargs → string →
       result (list Document))
    (metadata_filter : option (gmap string constraint)) (top_k : option Z)
    (q intent : string) (service : option string) :
  (∃ r, get_base_retriever (Ok vs) top_k = (Ok r, [])
        ∧ r_search_type r = similarity_score_threshold
        ∧ kw_score_threshold (r_search_kwargs r) = Some (3 # 4)%Q
        ∧ kw_filter (r_search_kwargs r) = None)
  ∧ (∃ r, get_filtered_retriever (Ok vs) metadata_filter top_k = (Ok r, [])
          ∧ r_search_type r = similarity
          ∧ kw_score_threshold (r_search_kwargs r) = None
          ∧ kw_filter (r_search_kwargs r) =
            (f ← metadata_filter; if decide (f = ∅) then None else Some f))
  ∧ Forall (plain_search_for q)
      (calls (route_query load_vector_index retriever_invoke
                q intent service))
  ∧ (intent ≠ "runbook_lookup" → intent ≠ "incident_analysis" →
     intent ≠ "log_analysis" → service_entry service = None →
       calls (route_query (Ok vs) retriever_invoke q intent service) =
       [EvSearch similarity (mkKwargs 5 None None) q]).
Proof.
  split_and!.
  - eexists. by rewrite get_base_retriever_run.
  - destruct metadata_filter as [flt|]; eexists.
    + by rewrite get_filtered_retriever_run.
    + by rewrite get_filtered_retriever_none.
  - apply route_query_plain.
  - intros H1 H2 H3 Hsvc.
    rewrite route_query_default_run by done. by rewrite Hsvc.
Qed.

Lemma retrieval_modes_witness :
  calls (route_query (Ok ()) (table_invoke no_documents)
           "what is the weather today?" "general_question" (Some "unknown")) =
  [EvSearch similarity (mkKwargs 5 None None) "what is the weather today?"].
Proof.
  apply (proj2 (proj2 (proj2 (retrieval_modes () (Ok ())
           (table_invoke no_documents) None None
           "what is the weather today?" "general_question"
           (Some "unknown"))))); done.
Defined.
(** ** chains/intent_chain.py *)

Lemma elem_of_allowed (x : string) : x ∈ allowed ↔ x ∈ SIX_INTENTS.
Proof.
  unfold allowed, SIX_INTENTS.
  rewrite !elem_of_union, !elem_of_singleton, !elem_of_cons, elem_of_nil.
  tauto.
Qed.

(** C2. Whatever text the classification collaborator returns,
    [classify_intent] returns (it does not raise), it makes that one
    collaborator call, and its result is one of the six labels: the
    trimmed, lower-cased text when that is a label, and
    ["runbook_lookup"] otherwise.  Trimming and lower-casing commute, and
    an answer outside the taxonomy is never handed back as it came. *)
Theorem classify_intent_guardrail
    (intent_chain_invoke : string → result string) (q raw : string) :
  intent_chain_invoke q = Ok raw →
  let norm := PyStr.lower (PyStr.strip raw) in
  ∃ label,
    classify_intent intent_chain_invoke q = (Ok label, [EvClassify q])
    ∧ label ∈ SIX_INTENTS
    ∧ (norm ∈ SIX_INTENTS → label = norm)
    ∧ (norm ∉ SIX_INTENTS → label = "runbook_lookup")
    ∧ (raw ∉ SIX_INTENTS → label ≠ raw)
    ∧ PyStr.strip (PyStr.lower raw) = norm.
Proof.
  intros Hraw norm.
  assert (∃ label,
    classify_intent intent_chain_invoke q = (Ok label, [EvClassify q])
    ∧ label ∈ SIX_INTENTS
    ∧ (norm ∈ SIX_INTENTS → label = norm)
    ∧ (norm ∉ SIX_INTENTS → label = "runbook_lookup"))
    as (label & Hrun & Hin & Hyes & Hno).
  { unfold classify_intent. rewrite Hraw, bind_Ok. simpl. fold norm.
    case_bool_decide as Hallowed; rewrite elem_of_allowed in Hallowed.
    - exists "runbook_lookup". split_and!; [done| |done|done].
      unfold SIX_INTENTS. by left.
    - by exists norm. }
  exists label. split_and!; try done.
  - intros Hout ->. done.
  - apply PyStrFacts.strip_lower.
Qed.

Lemma classify_intent_guardrail_witness :
  ∃ label,
    classify_intent (const_intent "  Please check the RUNBOOK ") "disk full" =
      (Ok label, [EvClassify "disk full"])
    ∧ label = "runbook_lookup".
Proof.
  destruct (classify_intent_guardrail
              (const_intent "  Please check the RUNBOOK ") "disk full"
              "  Please check the RUNBOOK " eq_refl)
    as (label & Hrun & _ & _ & Hno & _).
  exists label. split; [exact Hrun|].
  apply Hno. apply (bool_decide_unpack _). vm_compute. exact I.
Defined.
(** ** chains/rag_chain.py: reference identifiers *)

Lemma elem_of_NULL_LIKE (s : string) :
  PyStr.lower s ∈ NULL_LIKE ↔ s = "" ∨ reads_null s.
Proof.
  unfold NULL_LIKE, reads_null.
  rewrite !elem_of_union, !elem_of_singleton, PyStrFacts.lower_empty_iff.
  tauto.
Qed.

Lemma elem_of_NULL_NAMES (s : string) :
  PyStr.lower s ∈ NULL_NAMES ↔ reads_null s.
Proof.
  unfold NULL_NAMES, reads_null.
  by rewrite !elem_of_union, !elem_of_singleton.
Qed.

Ltac split_bool_decide H :=
  match goal with
  | |- context [@bool_decide ?P ?dec] =>
      destruct (@decide P dec) as [H|H];
      [rewrite (@bool_decide_eq_true_2 P dec H)
      |rewrite (@bool_decide_eq_false_2 P dec H)]
  end.

Lemma ref_step_name (r_doc : gset string) (d : Document) :
  ref_step r_doc d =
  match ref_name d with
  | Some name => {[ name ]} ∪ r_doc
  | None => r_doc
  end.
Proof.
  unfold ref_step, ref_name, md_ref_name, md_source.
  destruct (metadata d) as [m|]; simpl; [|by rewrite lookup_empty].
  destruct (m !! "source") as [v|]; simpl; [|done].
  destruct (truthy v) eqn:Hv; simpl.
  - split_bool_decide Hnl; rewrite elem_of_NULL_LIKE in Hnl.
    + case_decide as Hex; [done|]. destruct Hex. by right.
    + case_decide as Hex.
      { destruct Hex as [?|Hex]; [done|]. by destruct Hnl. }
      destruct (String.eqb_spec (PyStr.basename (PyStr.strip (py_str v))) "")
        as [He|He]; simpl.
      * case_decide as Hn; [done|]. destruct Hn. by left.
      * split_bool_decide Hn; rewrite elem_of_NULL_NAMES in Hn;
          case_decide as Hn'; try done.
        -- by destruct Hn' as [?|?].
        -- destruct Hn'. right. by apply dec_stable.
  - done.
Qed.

Lemma foldl_ref_step (docs : list Document) (r_doc : gset string) :
  foldl ref_step r_doc docs = list_to_set (omap ref_name docs) ∪ r_doc.
Proof.
  revert r_doc. induction docs as [|d docs IH]; intros r_doc; simpl.
  - by rewrite union_empty_l_L.
  - rewrite IH, ref_step_name.
    destruct (ref_name d) as [name|]; simpl; [|done].
    by rewrite (assoc_L (∪)), (comm_L (∪) _ {[ name ]}).
Qed.

Lemma extract_reference_ids_set (docs : list Document) :
  _extract_reference_ids docs =
  merge_sort PyStr.le
    (elements (list_to_set (omap ref_name docs) : gset string)).
Proof.
  unfold _extract_reference_ids. by rewrite foldl_ref_step, union_empty_r_L.
Qed.

Lemma elem_of_extract_reference_ids (docs : list Document) (name : string) :
  name ∈ _extract_reference_ids docs ↔ ∃ d, d ∈ docs ∧ ref_name d = Some name.
Proof.
  rewrite extract_reference_ids_set, merge_sort_Permutation.
  rewrite elem_of_elements, elem_of_list_to_set, list_elem_of_omap.
  done.
Qed.

Lemma ref_name_Some (d : Document) (name : string) :
  ref_name d = Some name ↔
  ∃ v, source_of d = Some v ∧ ¬ excluded_source (Some v)
       ∧ name = PyStr.basename (PyStr.strip (py_str v))
       ∧ name ≠ "" ∧ ¬ reads_null name.
Proof.
  unfold ref_name, md_ref_name, source_of.
  destruct (md_source (metadata d)) as [v|]; simpl.
  - repeat case_decide; split.
    + done.
    + intros (v' & [= <-] & Hex & _). done.
    + done.
    + intros (v' & [= <-] & _ & -> & Hne & Hnn). tauto.
    + intros [= <-]. exists v. tauto.
    + by intros (v' & [= <-] & _ & -> & _).
  - split; [done|]. by intros (v' & ? & _).
Qed.

Lemma ref_name_excluded (d : Document) :
  excluded_source (source_of d) → ref_name d = None.
Proof.
  unfold ref_name, md_ref_name, source_of.
  destruct (md_source (metadata d)) as [v|]; simpl; [|done].
  intros Hex. by case_decide.
Qed.

Lemma omap_ref_name_filter (docs : list Document) :
  omap ref_name (filter (λ d, ¬ excluded_source (source_of d)) docs) =
  omap ref_name docs.
Proof.
  induction docs as [|d docs IH]; [done|].
  rewrite filter_cons. case_decide as Hex; csimpl; rewrite IH; [done|].
  by rewrite (ref_name_excluded d Hex).
Qed.

Lemma extract_reference_ids_filter (docs : list Document) :
  _extract_reference_ids
    (filter (λ d, ¬ excluded_source (source_of d)) docs) =
  _extract_reference_ids docs.
Proof.
  by rewrite !extract_reference_ids_set, omap_ref_name_filter.
Qed.

(** C5, as the code has it.  A name is in the result exactly when some
    document of the batch has a source entry that is not excluded
    (excluded: absent, falsy, empty, or reading none/null in any case)
    and the name is the basename of that entry's text after trimming,
    provided this basename is itself neither empty nor reading none/null.
    Documents with an excluded source contribute nothing: dropping them
    from the batch leaves the result unchanged.  The extractor is a total
    function, so no metadata makes it raise. *)
Theorem extract_reference_ids_members (docs : list Document) (name : string) :
  (name ∈ _extract_reference_ids docs ↔
     ∃ d v, d ∈ docs
            ∧ source_of d = Some v
            ∧ ¬ excluded_source (Some v)
            ∧ name = PyStr.basename (PyStr.strip (py_str v))
            ∧ name ≠ ""
            ∧ ¬ reads_null name)
  ∧ _extract_reference_ids
      (filter (λ d, ¬ excluded_source (source_of d)) docs) =
    _extract_reference_ids docs.
Proof.
  split; [|apply extract_reference_ids_filter].
  rewrite elem_of_extract_reference_ids. split.
  - intros (d & Hd & Hname). apply ref_name_Some in Hname as (v & Hv).
    by exists d, v.
  - intros (d & v & Hd & Hv). exists d. split; [done|].
    apply ref_name_Some. by exists v.
Qed.

(** Two sources that are not excluded and still are not added under
    their basename: the basename of ["logs/None"] is dropped, and the
    basename of a source with a trailing blank is added trimmed. *)
Lemma remaining_source_not_added_as_basename :
  (¬ excluded_source (source_of (doc_with_source "logs/None"))
   ∧ PyStr.basename "logs/None" = "None"
   ∧ _extract_reference_ids [doc_with_source "logs/None"] = [])
  ∧ (¬ excluded_source (source_of (doc_with_source "runbooks/disk.txt "))
     ∧ PyStr.basename "runbooks/disk.txt " = "disk.txt "
     ∧ _extract_reference_ids [doc_with_source "runbooks/disk.txt "] =
       ["disk.txt"]).
Proof.
  split_and!; try by vm_compute.
  - apply (bool_decide_unpack _). by vm_compute.
  - apply (bool_decide_unpack _). by vm_compute.
Qed.

(** ** chains/rag_chain.py: context and answer assembly *)

Lemma run_eta {A} (m : M A) : m = (outcome m, calls m).
Proof. by destruct m. Qed.

Lemma metadata_get_calls d key dflt : calls (metadata_get d key dflt) = [].
Proof. unfold metadata_get. by destruct (metadata d). Qed.

Lemma context_block_calls d : calls (context_block d) = [].
Proof.
  unfold context_block. rewrite calls_bind, metadata_get_calls.
  destruct (outcome (metadata_get d "source_type" _)); [|done].
  rewrite calls_bind, metadata_get_calls.
  by destruct (outcome (metadata_get d "service" _)).
Qed.

Lemma mapM_calls_nil {A B} (f : A → M B) (l : list A) :
  (∀ x, calls (f x) = []) → calls (mapM f l) = [].
Proof.
  intros Hf. induction l as [|x l IH]; [done|].
  simpl. rewrite calls_bind, Hf.
  destruct (outcome (f x)); [|done].
  rewrite calls_bind, IH. by destruct (outcome (mapM f l)).
Qed.

Lemma build_context_calls docs : calls (_build_context docs) = [].
Proof.
  unfold _build_context. destruct (nonempty docs); simpl; [|done].
  rewrite calls_bind, (mapM_calls_nil _ _ context_block_calls).
  by destruct (outcome (mapM context_block _)).
Qed.

Lemma classify_intent_calls ichain q :
  calls (classify_intent ichain q) = [EvClassify q].
Proof.
  unfold classify_intent. rewrite calls_bind. simpl.
  by destruct (ichain q).
Qed.

Section AnswerFacts.

Context {VectorStore : Type}.
Variable load_vector_index : result VectorStore.
Variable retriever_invoke :
  VectorStore → search_type → search_kwargs → string → result (list Document).
Variable intent_chain_invoke : string → result string.
Variable rag_chain_invoke : string → string → string → result string.

(** What [generate_answer] does once classification and routing have
    returned. *)
Lemma generate_answer_routed q history service label docs :
  outcome (classify_intent intent_chain_invoke q) = Ok label →
  outcome (route_query load_vector_index retriever_invoke q label service) =
    Ok docs →
  generate_answer load_vector_index retriever_invoke intent_chain_invoke
    rag_chain_invoke q history service =
  let searches :=
    calls (route_query load_vector_index retriever_invoke q label service) in
  match docs with
  | [] => (Ok (NO_INFO, []), EvClassify q :: searches)
  | _ :: _ =>
      match outcome (_build_context docs) with
      | Ok ctx =>
          (match rag_chain_invoke q ctx history with
           | Ok text => Ok (text, _extract_reference_ids docs)
           | Raise e => Raise e
           end,
           (EvClassify q :: searches ++ [EvGenerate q ctx history])%list)
      | Raise e => (Raise e, EvClassify q :: searches)
      end
  end.
Proof.
  intros Hc Hr. unfold generate_answer.
  rewrite (run_eta (classify_intent _ q)), Hc, classify_intent_calls, bind_Ok.
  rewrite (run_eta (route_query _ _ q label service)), Hr, bind_Ok.
  destruct docs as [|d docs]; simpl.
  { by rewrite app_nil_r. }
  rewrite (run_eta (_build_context (d :: docs))), build_context_calls.
  destruct (outcome (_build_context (d :: docs))) as [ctx|e].
  - rewrite bind_Ok. simpl.
    destruct (rag_chain_invoke q ctx history); simpl; by rewrite ?app_nil_r.
  - simpl. by rewrite app_nil_r.
Qed.

Lemma route_query_no_generate q label service :
  Forall (λ e, is_generate e = false)
    (calls (route_query load_vector_index retriever_invoke q label service)).
Proof.
  eapply Forall_impl; [apply route_query_plain|].
  by intros e (kw & -> & _).
Qed.

End AnswerFacts.

Lemma filter_generate_none (l : list event) :
  Forall (λ e, is_generate e = false) l →
  filter (λ e, is_generate e = true) l = [].
Proof.
  induction 1 as [|e l He _ IH]; [done|].
  rewrite filter_cons, decide_False; [done|].
  by rewrite He.
Qed.

(** C4. When routing returns no document, [generate_answer] returns the
    fixed "no information" text with an empty reference list, its
    collaborator calls are the classification call followed by the
    Router's searches, and none of them is a generation call. *)
Theorem generate_answer_no_documents {VectorStore : Type}
    (load_vector_index : result VectorStore)
    (retriever_invoke :
       VectorStore → search_type → search_kwargs → string →
       result (list Document))
    (intent_chain_invoke : string → result string)
    (rag_chain_invoke : string → string → string → result string)
    (q history : string) (service : option string) (label : string) :
  outcome (classify_intent intent_chain_invoke q) = Ok label →
  outcome (route_query load_vector_index retriever_invoke q label service) =
    Ok [] →
  let run :=
    generate_answer load_vector_index retriever_invoke intent_chain_invoke
      rag_chain_invoke q history service in
  outcome run =
    Ok ("No relevant information found in runbooks, incidents, alerts, "
        ++ "logs, or tickets. Please verify the issue or update the "
        ++ "knowledge base.", [])
  ∧ calls run =
    EvClassify q
      :: calls (route_query load_vector_index retriever_invoke
                  q label service)
  ∧ Forall (λ e, is_generate e = false) (calls run).
Proof.
  intros Hc Hr run. subst run.
  rewrite (generate_answer_routed _ _ _ _ q history service label [] Hc Hr).
  simpl. split_and!; [done..|].
  constructor; [done|]. apply route_query_no_generate.
Qed.

Lemma generate_answer_no_documents_witness :
  let q := "how do I reset the flux capacitor?" in
  generate_answer (Ok ()) (table_invoke no_documents)
    (const_intent "log_analysis") (const_answer "never used") q ""
    (Some "trading-db") =
  (Ok (NO_INFO, []),
   [EvClassify q;
    EvSearch similarity
      (mkKwargs 5 (Some (source_service_filter "log" (Some "trading-db")))
         None) q]).
Proof.
  intros q.
  destruct (generate_answer_no_documents (Ok ()) (table_invoke no_documents)
              (const_intent "log_analysis") (const_answer "never used") q ""
              (Some "trading-db") "log_analysis" eq_refl eq_refl)
    as (Hout & Hcalls & _).
  rewrite (run_eta (generate_answer _ _ _ _ _ _ _)), Hout, Hcalls.
  reflexivity.
Defined.


Lemma generate_answer_returns {VectorStore : Type}
    (load_vector_index : result VectorStore)
    (retriever_invoke :
       VectorStore → search_type → search_kwargs → string →
       result (list Document))
    (intent_chain_invoke : string → result string)
    (rag_chain_invoke : string → string → string → result string)
    (q history : string) (service : option string)
    (text : string) (refs : list string) :
  outcome (generate_answer load_vector_index retriever_invoke
             intent_chain_invoke rag_chain_invoke q history service) =
    Ok (text, refs) →
  ∃ label docs,
    outcome (classify_intent intent_chain_invoke q) = Ok label
    ∧ outcome (route_query load_vector_index retriever_invoke
                 q label service) = Ok docs
    ∧ refs = _extract_reference_ids docs.
Proof.
  intros Hrun.
  destruct (outcome (classify_intent intent_chain_invoke q))
    as [label|e] eqn:Hc.
  2:{ unfold generate_answer in Hrun. by rewrite outcome_bind, Hc in Hrun. }
  destruct (outcome (route_query load_vector_index retriever_invoke
                       q label service)) as [docs|e] eqn:Hr.
  2:{ unfold generate_answer in Hrun.
      rewrite outcome_bind, Hc in Hrun. cbv beta iota in Hrun.
      by rewrite outcome_bind, Hr in Hrun. }
  exists label, docs. split_and!; [done..|].
  rewrite (generate_answer_routed _ _ _ _ q history service label docs Hc Hr)
    in Hrun.
  destruct docs as [|d docs]; simpl in Hrun; [by simplify_eq|].
  destruct (outcome (_build_context (d :: docs))) as [ctx|e]; [|done].
  simpl in Hrun. destruct (rag_chain_invoke q ctx history); by simplify_eq.
Qed.

(** ** The reference list is canonical *)

(** C6. The result of the extractor is the same for any two batches
    whose metadata agree up to order: it does not depend on the order of
    the documents nor on their text.  It is strictly increasing in the
    order of [sorted], hence without repetition, and feeding the batch
    twice changes nothing.  Whenever [generate_answer] returns, the
    reference list it returns is the extractor's result on the routed
    documents, so two runs that differ only in the generation
    collaborator return the same list. *)
Theorem extract_reference_ids_canonical (docs docs' : list Document) :
  metadata <$> docs ≡ₚ metadata <$> docs' →
  _extract_reference_ids docs = _extract_reference_ids docs'
  ∧ StronglySorted PyStr.lt (_extract_reference_ids docs)
  ∧ NoDup (_extract_reference_ids docs)
  ∧ _extract_reference_ids (docs ++ docs) = _extract_reference_ids docs
  ∧ (∀ (VectorStore : Type) (load_vector_index : result VectorStore)
       retriever_invoke intent_chain_invoke rag rag' q history service
       text text' refs refs',
       outcome (generate_answer load_vector_index retriever_invoke
                  intent_chain_invoke rag q history service) =
         Ok (text, refs) →
       outcome (generate_answer load_vector_index retriever_invoke
                  intent_chain_invoke rag' q history service) =
         Ok (text', refs') →
       refs = refs').
Proof.
  intros Hperm.
  assert (NoDup (_extract_reference_ids docs)) as Hnd.
  { rewrite extract_reference_ids_set, merge_sort_Permutation.
    apply NoDup_elements. }
  split_and!.
  - rewrite !extract_reference_ids_set. do 2 f_equal.
    assert (∀ l : list Document,
              omap ref_name l = omap md_ref_name (metadata <$> l)) as Hmd.
    { intros l. induction l as [|d l IH]; csimpl; [done|].
      unfold ref_name at 1. by rewrite IH. }
    rewrite !Hmd. apply list_to_set_perm_L. by rewrite Hperm.
  - apply PyOrd.Sorted_le_NoDup_lt; [|done].
    rewrite extract_reference_ids_set. apply Sorted_merge_sort, _.
  - done.
  - rewrite !extract_reference_ids_set. do 2 f_equal.
    by rewrite omap_app, list_to_set_app_L, union_idemp_L.
  - intros VS load inv ichain rag rag' q history service
      text text' refs refs' Hrun Hrun'.
    apply generate_answer_returns in Hrun as (label & ds & Hc & Hr & ->).
    apply generate_answer_returns in Hrun' as (label' & ds' & Hc' & Hr' & ->).
    rewrite Hc in Hc'. injection Hc' as <-.
    rewrite Hr in Hr'. by injection Hr' as <-.
Qed.

Lemma extract_reference_ids_canonical_witness :
  let a := mkDocument "steps" (Some {[ "source" := VStr "runbooks/b.txt" ]}) in
  let b := mkDocument "alert" (Some {[ "source" := VStr "alerts/a.txt" ]}) in
  let a' := mkDocument "other" (Some {[ "source" := VStr "runbooks/b.txt" ]}) in
  _extract_reference_ids [a; b] = _extract_reference_ids [b; a'].
Proof.
  intros a b a'.
  apply (extract_reference_ids_canonical [a; b] [b; a']).
  simpl. apply perm_swap.
Defined.
(** * Further properties *)

(** ** retrieval/filters.py *)

Lemma build_metadata_filter_lookups source_type service max_priority :
  let flt := build_metadata_filter source_type service max_priority in
  flt !! "source_type" = source_type_entry source_type
  ∧ flt !! "service" = service_entry service
  ∧ flt !! "priority_order" = CLte <$> max_priority.
Proof.
  simpl. rewrite build_metadata_filter_unfold, !lookup_put_if.
  repeat case_decide; try done. rewrite lookup_empty.
  by destruct (source_type_entry source_type), (service_entry service),
    max_priority.
Qed.

(** X1. Two calls of [build_metadata_filter] build the same filter exactly
    when their usable inputs agree: the source types are the same
    non-empty string or both unusable (absent or empty), the services are
    the same usable string or both unusable (absent, empty or
    ["unknown"]), and the priority bounds are equal. *)
Theorem build_metadata_filter_eq_iff
    (source_type service : option string) (max_priority : option Z)
    (source_type' service' : option string) (max_priority' : option Z) :
  build_metadata_filter source_type service max_priority =
  build_metadata_filter source_type' service' max_priority'
  ↔ source_type_entry source_type = source_type_entry source_type'
    ∧ service_entry service = service_entry service'
    ∧ max_priority = max_priority'.
Proof.
  split.
  - intros Heq.
    destruct (build_metadata_filter_lookups source_type service max_priority)
      as (H1 & H2 & H3).
    destruct (build_metadata_filter_lookups source_type' service'
                max_priority') as (H1' & H2' & H3').
    simpl in *. rewrite Heq in H1, H2, H3.
    rewrite H1' in H1. rewrite H2' in H2. rewrite H3' in H3.
    split_and!; [done..|].
    destruct max_priority, max_priority'; by simplify_eq.
  - intros (H1 & H2 & ->).
    by rewrite !build_metadata_filter_unfold, H1, H2.
Qed.

(** X2. The number of entries of the filter is the number of usable
    inputs; so it is at most three, and the filter is empty exactly when
    no input is usable. *)
Theorem build_metadata_filter_size
    (source_type service : option string) (max_priority : option Z) :
  let flt := build_metadata_filter source_type service max_priority in
  let n (o : option constraint) : nat :=
    if o is Some _ then 1%nat else 0%nat in
  size flt =
    (n (source_type_entry source_type) + n (service_entry service)
     + n (CLte <$> max_priority))%nat
  ∧ (flt = ∅ ↔ source_type_entry source_type = None
               ∧ service_entry service = None
               ∧ max_priority = None).
Proof.
  simpl. rewrite build_metadata_filter_unfold.
  destruct (source_type_entry source_type) as [c1|],
    (service_entry service) as [c2|], max_priority as [p|]; simpl;
    repeat (rewrite map_size_insert_None
              by (rewrite ?lookup_insert_ne by done; apply lookup_empty));
    rewrite map_size_empty; (split; [done|]);
    (split; [|by intros (? & ? & ?)]);
    intros Heq; try done;
    by apply insert_non_empty in Heq.
Qed.

(** X30. The convenience wrappers.  Each source-type wrapper builds a
    filter that is never empty and carries its own type under
    ["source_type"], so the wrappers of two different types never build
    the same filter; each adds the service entry exactly as
    [build_all_sources_filter] does, and that one builds the empty
    filter exactly when the service is unusable.  The three searches of
    the runbook cascade carry the filters of [build_runbook_filter],
    [build_alert_filter] and [build_incident_filter]. *)
Theorem filter_wrappers (service : option string) :
  let wrappers :=
    [ ("runbook", build_runbook_filter); ("incident", build_incident_filter);
      ("alert", build_alert_filter); ("ticket", build_ticket_filter);
      ("log", build_log_filter) ] in
  Forall (λ w : string * (option string → gmap string constraint),
      w.2 service ≠ ∅
      ∧ w.2 service !! "source_type" = Some (CVal (VStr w.1))
      ∧ w.2 service !! "service" =
        build_all_sources_filter service !! "service"
      ∧ dom (w.2 service) =
        {[ "source_type" ]} ∪ dom (build_all_sources_filter service))
    wrappers
  ∧ build_all_sources_filter service !! "source_type" = None
  ∧ (build_all_sources_filter service = ∅ ↔ service_entry service = None)
  ∧ kw_filter (cascade_kwargs "runbook" service) =
    Some (build_runbook_filter service)
  ∧ kw_filter (cascade_kwargs "alert" service) =
    Some (build_alert_filter service)
  ∧ kw_filter (cascade_kwargs "incident" service) =
    Some (build_incident_filter service).
Proof.
  assert (∀ stype, stype ≠ "" →
    let flt := build_metadata_filter (Some stype) service None in
    flt ≠ ∅
    ∧ flt !! "source_type" = Some (CVal (VStr stype))
    ∧ flt !! "service" = build_all_sources_filter service !! "service"
    ∧ dom flt = {[ "source_type" ]} ∪ dom (build_all_sources_filter service))
    as Hw.
  { intros stype Hne flt. subst flt. unfold build_all_sources_filter.
    rewrite source_service_filter_build by done.
    rewrite service_only_filter_build.
    unfold source_service_filter, service_only_filter.
    split_and!.
    - apply source_service_filter_nonempty.
    - rewrite lookup_put_if. rewrite decide_False by done.
      apply lookup_singleton_eq.
    - rewrite !lookup_put_if. rewrite !decide_True by done.
      destruct (service_entry service); [done|].
      by rewrite lookup_singleton_ne, lookup_empty.
    - destruct (service_entry service) as [c|]; simpl.
      + rewrite !dom_insert_L, dom_singleton_L, dom_empty_L.
        rewrite (comm_L (∪) {[ "service" ]} {[ "source_type" ]}).
        by rewrite union_empty_r_L.
      + by rewrite dom_singleton_L, dom_empty_L, union_empty_r_L. }
  cbv zeta. split_and!.
  - repeat (apply Forall_cons_2; [cbn [fst snd]; by apply (Hw _)|]).
    apply Forall_nil_2.
  - unfold build_all_sources_filter.
    rewrite service_only_filter_build. unfold service_only_filter.
    rewrite lookup_put_if. by rewrite decide_False, lookup_empty.
  - unfold build_all_sources_filter.
    rewrite service_only_filter_build. unfold service_only_filter.
    destruct (service_entry service) as [c|]; simpl; [|done].
    split; [|done]. intros Heq. by apply insert_non_empty in Heq.
  - unfold cascade_kwargs, build_runbook_filter. cbn [kw_filter].
    by rewrite source_service_filter_build.
  - unfold cascade_kwargs, build_alert_filter. cbn [kw_filter].
    by rewrite source_service_filter_build.
  - unfold cascade_kwargs, build_incident_filter. cbn [kw_filter].
    by rewrite source_service_filter_build.
Qed.

(** ** retrieval/routing.py and retrieval/retrievers.py *)

Lemma bind_ext {A B} (m : M A) (f g : A → M B) :
  (∀ a, f a = g a) → m ≫= f = m ≫= g.
Proof.
  intros Hfg. destruct m as [[a|e] t]; [|done].
  by rewrite !bind_Ok, Hfg.
Qed.

Lemma build_metadata_filter_service_entry source_type service service' :
  service_entry service = service_entry service' →
  build_metadata_filter source_type service None =
  build_metadata_filter source_type service' None.
Proof. intros Heq. by rewrite !build_metadata_filter_unfold, Heq. Qed.

Lemma route_query_service_entry {VectorStore : Type}
    (load_vector_index : result VectorStore) retriever_invoke
    q intent service service' :
  service_entry service = service_entry service' →
  route_query load_vector_index retriever_invoke q intent service =
  route_query load_vector_index retriever_invoke q intent service'.
Proof.
  intros Heq. unfold route_query, route_runbook_first.
  by rewrite !(build_metadata_filter_service_entry _ service service' Heq).
Qed.

(** X3. A service that is absent, empty or ["unknown"] is no constraint
    all the way up: two services with the same usable text, or both
    unusable, give the same routing (result and searches) and the same
    run of [generate_answer]. *)
Theorem unusable_services_route_alike {VectorStore : Type}
    (load_vector_index : result VectorStore)
    (retriever_invoke :
       VectorStore → search_type → search_kwargs → string →
       result (list Document))
    (intent_chain_invoke : string → result string)
    (rag_chain_invoke : string → string → string → result string)
    (q intent history : string) (service service' : option string) :
  service_entry service = service_entry service' →
  route_query load_vector_index retriever_invoke q intent service =
  route_query load_vector_index retriever_invoke q intent service'
  ∧ generate_answer load_vector_index retriever_invoke intent_chain_invoke
      rag_chain_invoke q history service =
    generate_answer load_vector_index retriever_invoke intent_chain_invoke
      rag_chain_invoke q history service'.
Proof.
  intros Heq. split; [by apply route_query_service_entry|].
  unfold generate_answer. apply bind_ext. intros label.
  by rewrite (route_query_service_entry _ _ q label service service' Heq).
Qed.

Lemma unusable_services_route_alike_witness :
  route_query (Ok ()) (table_invoke (only_row "log" "logs/app.log"))
    "timeout in trade service" "log_analysis" (Some "unknown") =
  route_query (Ok ()) (table_invoke (only_row "log" "logs/app.log"))
    "timeout in trade service" "log_analysis" None.
Proof.
  apply (unusable_services_route_alike (Ok ())
           (table_invoke (only_row "log" "logs/app.log"))
           (const_intent "log_analysis") (const_answer "")
           "timeout in trade service" "log_analysis" ""
           (Some "unknown") None).
  reflexivity.
Defined.

(** X4. When the index cannot be loaded, nothing is searched and the
    load's exception comes out: both retriever constructors raise it,
    [route_query] raises it for every intent with an empty call log, and
    [generate_answer] raises it right after a classification that
    returned.  An unavailable index is never reported as an empty
    result. *)
Theorem index_unavailable_raises {VectorStore : Type} (e : exn)
    (retriever_invoke :
       VectorStore → search_type → search_kwargs → string →
       result (list Document))
    (intent_chain_invoke : string → result string)
    (rag_chain_invoke : string → string → string → result string)
    (metadata_filter : option (gmap string constraint)) (top_k : option Z)
    (q intent history : string) (service : option string) :
  get_base_retriever (VectorStore := VectorStore) (Raise e) top_k =
    (Raise e, [])
  ∧ get_filtered_retriever (VectorStore := VectorStore) (Raise e)
      metadata_filter top_k = (Raise e, [])
  ∧ route_query (Raise e) retriever_invoke q intent service = (Raise e, [])
  ∧ (∀ raw, intent_chain_invoke q = Ok raw →
       generate_answer (Raise e) retriever_invoke intent_chain_invoke
         rag_chain_invoke q history service = (Raise e, [EvClassify q])).
Proof.
  assert (∀ intent', route_query (Raise e) retriever_invoke q intent' service
                     = (Raise e, [])) as Hroute.
  { intros intent'. unfold route_query, route_runbook_first.
    rewrite !retrieve_with_filter_run. by repeat case_match. }
  split_and!; [done|done|apply Hroute|].
  intros raw Hraw.
  assert (∃ label, outcome (classify_intent intent_chain_invoke q) = Ok label)
    as [label Hc].
  { unfold classify_intent. rewrite Hraw, bind_Ok. by eexists. }
  unfold generate_answer.
  rewrite (run_eta (classify_intent _ q)), Hc, classify_intent_calls.
  by rewrite bind_Ok, Hroute.
Qed.

Lemma index_unavailable_raises_witness :
  generate_answer (VectorStore := ()) (Raise (PyExc "RuntimeError"))
    (table_invoke no_documents) (const_intent "log_analysis")
    (const_answer "") "disk full" "" None =
  (Raise (PyExc "RuntimeError"), [EvClassify "disk full"]).
Proof.
  apply (proj2 (proj2 (proj2 (index_unavailable_raises
           (PyExc "RuntimeError") (table_invoke no_documents)
           (const_intent "log_analysis") (const_answer "") None None
           "disk full" "" "" None))) "log_analysis").
  reflexivity.
Defined.

(** X5. With the index loaded, what [route_query] hands back, a document
    list or an exception, is the outcome of the last search in its call
    log, taken as it is: results of different searches are never merged.
    Every earlier search returned the empty list; there are at most two
    of them, none unless the intent is [runbook_lookup], and in the
    cascade a last search that comes before the third did not return
    the empty list. *)
Theorem route_query_last_search {VectorStore : Type} (vs : VectorStore)
    (retriever_invoke :
       VectorStore → search_type → search_kwargs → string →
       result (list Document))
    (q intent : string) (service : option string) :
  ∃ earlier kw,
    route_query (Ok vs) retriever_invoke q intent service =
      (retriever_invoke vs similarity kw q,
       (earlier ++ [EvSearch similarity kw q])%list)
    ∧ Forall (λ e, ∃ kw', e = EvSearch similarity kw' q
                          ∧ retriever_invoke vs similarity kw' q = Ok [])
        earlier
    ∧ (length earlier ≤ 2)%nat
    ∧ (intent ≠ "runbook_lookup" → earlier = [])
    ∧ (intent = "runbook_lookup" → (length earlier < 2)%nat →
         retriever_invoke vs similarity kw q ≠ Ok []).
Proof.
  destruct (decide (intent = "runbook_lookup")) as [->|Hne].
  - unfold route_query. simpl String.eqb. cbv iota.
    unfold route_runbook_first. rewrite !retrieve_source_run by done. cbv zeta.
    set (kw1 := mkKwargs _ (Some (source_service_filter "runbook" _)) _).
    set (kw2 := mkKwargs _ (Some (source_service_filter "alert" _)) _).
    set (kw3 := mkKwargs _ (Some (source_service_filter "incident" _)) _).
    destruct (retriever_invoke vs similarity kw1 q) as [[|d1 ds1]|e1] eqn:H1.
    2:{ exists [], kw1. rewrite H1, bind_Ok. simpl.
        split_and!; try done; try lia; by constructor. }
    2:{ exists [], kw1. rewrite H1. simpl.
        split_and!; try done; try lia; by constructor. }
    rewrite bind_Ok. simpl.
    destruct (retriever_invoke vs similarity kw2 q) as [[|d2 ds2]|e2] eqn:H2.
    2:{ exists [EvSearch similarity kw1 q], kw2. rewrite H2. simpl.
        split_and!; try done; try lia;
          repeat constructor; by exists kw1. }
    2:{ exists [EvSearch similarity kw1 q], kw2. rewrite H2. simpl.
        split_and!; try done; try lia;
          repeat constructor; by exists kw1. }
    simpl.
    exists [EvSearch similarity kw1 q; EvSearch similarity kw2 q], kw3.
    split_and!; try done; try (simpl; lia).
    + by destruct (retriever_invoke vs similarity kw3 q).
    + repeat constructor; eexists; done.
  - assert (∃ flt, route_query (Ok vs) retriever_invoke q intent service =
                   _retrieve_with_filter (Ok vs) retriever_invoke q flt None)
      as [flt ->].
    { unfold route_query.
      rewrite (proj2 (String.eqb_neq _ _) Hne).
      repeat case_match; by eexists. }
    rewrite retrieve_with_filter_run. cbv zeta.
    exists [], (filtered_kwargs (resolved_k None) flt).
    split_and!; try done; simpl; try lia; by constructor.
Qed.

Lemma route_query_last_search_witness :
  ∃ earlier kw,
    route_query (Ok ()) (table_invoke (only_row "log" "logs/app.log"))
      "stack trace in logs" "log_analysis" None =
      (table_invoke (only_row "log" "logs/app.log") () similarity kw
         "stack trace in logs",
       (earlier ++ [EvSearch similarity kw "stack trace in logs"])%list)
    ∧ earlier = [].
Proof.
  destruct (route_query_last_search ()
              (table_invoke (only_row "log" "logs/app.log"))
              "stack trace in logs" "log_analysis" None)
    as (earlier & kw & Hrun & _ & _ & Hnil & _).
  exists earlier, kw. split; [exact Hrun|].
  apply Hnil. discriminate.
Defined.

Lemma search_source_type_filtered st k flt q :
  search_source_type (EvSearch st (filtered_kwargs k flt) q) =
  flt !! "source_type".
Proof.
  unfold filtered_kwargs. simpl. case_decide as Hflt; [|done].
  by rewrite Hflt, lookup_empty.
Qed.

(** X6. The source types the Router ever filters on are [runbook],
    [alert], [incident] and [log], each only under the intent that owns
    it: [runbook] and [alert] only in the [runbook_lookup] cascade,
    [log] only for [log_analysis], [incident] only for
    [incident_analysis] or the cascade.  No search is ever filtered to
    [ticket], and [alert_investigation] and [ticket_investigation] get
    no source-type filter at all. *)
Theorem route_query_source_types {VectorStore : Type}
    (load_vector_index : result VectorStore)
    (retriever_invoke :
       VectorStore → search_type → search_kwargs → string →
       result (list Document))
    (q intent : string) (service : option string) :
  Forall (λ e,
      match search_source_type e with
      | None =>
          intent ≠ "runbook_lookup" ∧ intent ≠ "incident_analysis"
          ∧ intent ≠ "log_analysis"
      | Some c =>
          (c = CVal (VStr "runbook") ∧ intent = "runbook_lookup")
          ∨ (c = CVal (VStr "alert") ∧ intent = "runbook_lookup")
          ∨ (c = CVal (VStr "incident")
             ∧ (intent = "runbook_lookup" ∨ intent = "incident_analysis"))
          ∨ (c = CVal (VStr "log") ∧ intent = "log_analysis")
      end)
    (calls (route_query load_vector_index retriever_invoke
              q intent service)).
Proof.
  assert (∀ stype top_k (P : event → Prop),
    (∀ k, P (EvSearch similarity
               (filtered_kwargs k (build_metadata_filter stype service None))
               q)) →
    Forall P (calls (_retrieve_with_filter load_vector_index
                       retriever_invoke q
                       (build_metadata_filter stype service None) top_k)))
    as Hone.
  { intros stype top_k P HP. rewrite retrieve_with_filter_run.
    destruct load_vector_index as [vs|e]; simpl; [|constructor].
    repeat constructor. apply HP. }
  assert (∀ stype k,
    search_source_type
      (EvSearch similarity
         (filtered_kwargs k (build_metadata_filter stype service None)) q) =
    source_type_entry stype) as Hst.
  { intros stype k. rewrite search_source_type_filtered.
    apply build_metadata_filter_lookups. }
  unfold route_query.
  destruct (String.eqb_spec intent "runbook_lookup") as [->|H1].
  { unfold route_runbook_first.
    repeat (rewrite calls_bind; case_match;
            [|apply Hone; intros k; rewrite Hst; simpl; tauto];
            apply Forall_app; split;
            [apply Hone; intros k; rewrite Hst; simpl; tauto|];
            try case_match; try by constructor). }
  destruct (String.eqb_spec intent "incident_analysis") as [->|H2].
  { apply Hone. intros k. rewrite Hst. simpl. tauto. }
  destruct (String.eqb_spec intent "log_analysis") as [->|H3].
  { apply Hone. intros k. rewrite Hst. simpl. tauto. }
  apply Hone. intros k. by rewrite Hst.
Qed.

(** Every search of the Router carries the result count of its branch:
    three in the [runbook_lookup] cascade, the default five elsewhere. *)
Lemma route_query_k_by_intent {VectorStore : Type}
    (load_vector_index : result VectorStore) retriever_invoke
    q intent service :
  Forall (λ e, ∃ kw, e = EvSearch similarity kw q
                     ∧ kw_k kw = if decide (intent = "runbook_lookup")
                                 then 3 else 5)
    (calls (route_query load_vector_index retriever_invoke q intent service)).
Proof.
  assert (∀ flt top_k k, resolved_k top_k = k →
    Forall (λ e, ∃ kw, e = EvSearch similarity kw q ∧ kw_k kw = k)
      (calls (_retrieve_with_filter load_vector_index retriever_invoke
                q flt top_k))) as Hone.
  { intros flt top_k k Hk. rewrite retrieve_with_filter_run.
    destruct load_vector_index as [vs|e]; simpl; [|constructor].
    repeat constructor. by eexists. }
  unfold route_query.
  destruct (String.eqb_spec intent "runbook_lookup") as [->|H1].
  - rewrite decide_True by done. unfold route_runbook_first.
    repeat (rewrite calls_bind; case_match;
            [|by apply Hone];
            apply Forall_app; split;
            [by apply Hone|];
            try case_match; try by constructor).
  - rewrite decide_False by done. repeat case_match; by apply Hone.
Qed.

(** ** Strings: trimming *)

Module StripFacts.
Import PyStr.

Lemma lstrip_blank ws : blank ws = true → lstrip ws = "".
Proof.
  induction ws as [|c ws IH]; simpl; [done|].
  intros [Hc Hws]%andb_true_iff. rewrite Hc. by apply IH.
Qed.

Lemma rstrip_blank ws : blank ws = true → rstrip ws = "".
Proof.
  induction ws as [|c ws IH]; simpl; [done|].
  intros [Hc Hws]%andb_true_iff. by rewrite IH, Hc.
Qed.

Lemma rstrip_empty_blank s : rstrip s = "" → blank s = true.
Proof.
  induction s as [|c s IH]; simpl; [done|].
  destruct (rstrip s) as [|c' r]; [|done].
  destruct (isspace c); [|done]. intros _. by rewrite IH.
Qed.

Lemma lstrip_app_blank ws s : blank ws = true → lstrip (ws ++ s) = lstrip s.
Proof.
  induction ws as [|c ws IH]; [done|]. simpl.
  intros [Hc Hws]%andb_true_iff.
  change (String c ws ++ s) with (String c (ws ++ s)).
  simpl. rewrite Hc. by apply IH.
Qed.

Lemma app_nil_l_str (t : string) : "" ++ t = t.
Proof. reflexivity. Qed.

Lemma app_cons_str c (s t : string) : String c s ++ t = String c (s ++ t).
Proof. reflexivity. Qed.

(** How [rstrip] sees a concatenation. *)
Lemma rstrip_app s t :
  rstrip (s ++ t) = if blank t then rstrip s else s ++ rstrip t.
Proof.
  induction s as [|c s IH].
  - rewrite !app_nil_l_str. destruct (blank t) eqn:Hb; [|done].
    by apply rstrip_blank.
  - rewrite !app_cons_str. simpl. rewrite IH.
    destruct (blank t) eqn:Hb; [done|].
    destruct (s ++ rstrip t) as [|c' r] eqn:Happ; [|done].
    destruct s; [|done]. rewrite app_nil_l_str in Happ.
    apply rstrip_empty_blank in Happ. congruence.
Qed.

Lemma lstrip_app s t :
  lstrip (s ++ t) = if blank s then lstrip t else lstrip s ++ t.
Proof.
  induction s as [|c s IH]; [done|].
  rewrite app_cons_str. simpl.
  by destruct (isspace c).
Qed.

Lemma blank_lstrip s : blank s = false → blank (lstrip s) = false.
Proof.
  induction s as [|c s IH]; simpl; [done|].
  destruct (isspace c) eqn:Hc; simpl; [done|]. by rewrite Hc.
Qed.

Lemma strip_padded ws1 s ws2 :
  blank ws1 = true → blank ws2 = true →
  strip (ws1 ++ s ++ ws2) = strip s.
Proof.
  intros H1 H2. unfold strip.
  rewrite lstrip_app_blank by done. rewrite lstrip_app.
  destruct (blank s) eqn:Hs.
  - by rewrite (lstrip_blank ws2), (lstrip_blank s).
  - by rewrite rstrip_app, H2.
Qed.

End StripFacts.

(** ** chains/intent_chain.py *)

Lemma classify_intent_run (intent_chain_invoke : string → result string)
    (q raw : string) :
  intent_chain_invoke q = Ok raw →
  classify_intent intent_chain_invoke q =
  (Ok (if decide (PyStr.lower (PyStr.strip raw) ∈ SIX_INTENTS)
       then PyStr.lower (PyStr.strip raw) else "runbook_lookup"),
   [EvClassify q]).
Proof.
  intros Hraw. unfold classify_intent. rewrite Hraw, bind_Ok. simpl.
  case_bool_decide as Hin; rewrite elem_of_allowed in Hin;
    by case_decide.
Qed.

(** X7. A failure of the classification collaborator is not caught:
    [classify_intent] raises the same exception after its single call,
    and [generate_answer] raises it too without searching or generating
    anything. *)
Theorem classification_failure_propagates {VectorStore : Type}
    (load_vector_index : result VectorStore)
    (retriever_invoke :
       VectorStore → search_type → search_kwargs → string →
       result (list Document))
    (intent_chain_invoke : string → result string)
    (rag_chain_invoke : string → string → string → result string)
    (q history : string) (service : option string) (e : exn) :
  intent_chain_invoke q = Raise e →
  classify_intent intent_chain_invoke q = (Raise e, [EvClassify q])
  ∧ generate_answer load_vector_index retriever_invoke intent_chain_invoke
      rag_chain_invoke q history service = (Raise e, [EvClassify q]).
Proof.
  intros He.
  assert (classify_intent intent_chain_invoke q = (Raise e, [EvClassify q]))
    as Hc.
  { unfold classify_intent. by rewrite He. }
  split; [done|]. unfold generate_answer. by rewrite Hc.
Qed.

Lemma classification_failure_propagates_witness :
  generate_answer (Ok ()) (table_invoke no_documents)
    (λ _, Raise (PyExc "RateLimitError")) (const_answer "") "disk full" ""
    None =
  (Raise (PyExc "RateLimitError"), [EvClassify "disk full"]).
Proof.
  apply (classification_failure_propagates (Ok ())
           (table_invoke no_documents) (λ _, Raise (PyExc "RateLimitError"))
           (const_answer "") "disk full" "" None (PyExc "RateLimitError")).
  reflexivity.
Defined.

(** X8. The classifier sees the collaborator's answer only up to
    surrounding whitespace and letter case: an answer padded with
    whitespace on either side, whose text differs from another answer
    in letter case only, is classified like that other answer. *)
Theorem classify_intent_ignores_padding_and_case
    (intent_chain_invoke intent_chain_invoke' : string → result string)
    (q raw raw' ws1 ws2 : string) :
  blank ws1 = true → blank ws2 = true →
  PyStr.lower raw' = PyStr.lower raw →
  intent_chain_invoke q = Ok raw →
  intent_chain_invoke' q = Ok (ws1 ++ raw' ++ ws2) →
  classify_intent intent_chain_invoke' q =
  classify_intent intent_chain_invoke q.
Proof.
  intros H1 H2 Hcase Hraw Hraw'.
  rewrite (classify_intent_run _ q _ Hraw), (classify_intent_run _ q _ Hraw').
  rewrite StripFacts.strip_padded by done.
  by rewrite <- !PyStrFacts.strip_lower, Hcase.
Qed.

Lemma classify_intent_ignores_padding_and_case_witness :
  classify_intent (const_intent (" " ++ "LOG_Analysis" ++ NL)) "q" =
  classify_intent (const_intent "log_analysis") "q".
Proof.
  apply (classify_intent_ignores_padding_and_case
           (const_intent "log_analysis")
           (const_intent (" " ++ "LOG_Analysis" ++ NL))
           "q" "log_analysis" "LOG_Analysis" " " NL); reflexivity.
Defined.

Lemma six_intents_normal (label : string) :
  label ∈ SIX_INTENTS → PyStr.lower (PyStr.strip label) = label.
Proof.
  unfold SIX_INTENTS. rewrite !elem_of_cons, elem_of_nil.
  intros [->|[->|[->|[->|[->|[->|[]]]]]]]; reflexivity.
Qed.

(** X9. Classification is idempotent: whatever label [classify_intent]
    returned, a collaborator that answers exactly that label gets the
    same label back; in particular each of the six labels passes the
    guardrail unchanged. *)
Theorem classify_intent_idempotent
    (intent_chain_invoke intent_chain_invoke' : string → result string)
    (q q' label : string) :
  outcome (classify_intent intent_chain_invoke q) = Ok label →
  intent_chain_invoke' q' = Ok label →
  outcome (classify_intent intent_chain_invoke' q') = Ok label.
Proof.
  intros Hc Hraw.
  assert (label ∈ SIX_INTENTS) as Hin.
  { destruct (intent_chain_invoke q) as [raw|e] eqn:Hq.
    - rewrite (classify_intent_run _ q raw Hq) in Hc. simpl in Hc.
      case_decide; simplify_eq; [done|]. unfold SIX_INTENTS. by left.
    - unfold classify_intent in Hc. by rewrite Hq in Hc. }
  rewrite (classify_intent_run _ q' label Hraw). simpl.
  rewrite six_intents_normal by done. by rewrite decide_True.
Qed.

Lemma classify_intent_idempotent_witness :
  outcome (classify_intent (const_intent "runbook_lookup") "again") =
  Ok "runbook_lookup".
Proof.
  apply (classify_intent_idempotent (const_intent "no idea")
           (const_intent "runbook_lookup") "first" "again" "runbook_lookup");
    reflexivity.
Defined.

(** ** Paths and suffixes *)

Module PathFacts.
Import PyStr.

Lemma app_assoc_str (a b c : string) : (a ++ b) ++ c = a ++ (b ++ c).
Proof.
  induction a as [|x a IH]; [done|].
  rewrite !StripFacts.app_cons_str. by rewrite IH.
Qed.

Lemma chars_app (a b : string) : chars (a ++ b) = (chars a ++ chars b)%list.
Proof.
  induction a as [|x a IH]; [done|].
  rewrite StripFacts.app_cons_str. simpl. by rewrite IH.
Qed.

Lemma rfind_lower_bound c s : -1 ≤ rfind c s.
Proof.
  induction s as [|a s IH]; simpl; [lia|].
  destruct (Z.leb_spec 0 (rfind c s)); [lia|].
  destruct (Ascii.eqb a c); lia.
Qed.

(** Nothing after the last occurrence of [c] is a [c]. *)
Lemma rfind_drop c s : c ∉ chars (drop (Z.to_nat (rfind c s + 1)) s).
Proof.
  induction s as [|a s IH]; simpl.
  { apply not_elem_of_nil. }
  pose proof (rfind_lower_bound c s) as Hlb.
  destruct (Z.leb_spec 0 (rfind c s)) as [Hge|Hlt].
  - replace (Z.to_nat (rfind c s + 1 + 1)) with (S (Z.to_nat (rfind c s + 1)))
      by lia.
    done.
  - assert (rfind c s = -1) as Hr by lia. rewrite Hr in IH. simpl in IH.
    destruct (Ascii.eqb_spec a c) as [->|Hne]; simpl; [done|].
    apply not_elem_of_cons. split; [congruence|done].
Qed.

Lemma drop_suffix n s : ∃ pre, s = pre ++ drop n s.
Proof.
  revert s. induction n as [|n IH]; intros s.
  { by exists "". }
  destruct s as [|a s]; [by exists ""|].
  destruct (IH s) as [pre Hpre]. exists (String a pre).
  simpl. rewrite StripFacts.app_cons_str. by rewrite <- Hpre.
Qed.

Lemma basename_no_slash p : "/"%char ∉ chars (basename p).
Proof. apply rfind_drop. Qed.

Lemma basename_suffix p : ∃ dir, p = dir ++ basename p.
Proof. apply drop_suffix. Qed.

Lemma last_char_app (a b : string) :
  b ≠ "" → last_char (a ++ b) = last_char b.
Proof.
  intros Hb. unfold last_char. rewrite chars_app.
  destruct b as [|x b]; [done|]. simpl chars.
  by rewrite last_app_cons.
Qed.

Lemma last_char_rstrip s c :
  last_char (rstrip s) = Some c → isspace c = false.
Proof.
  unfold last_char. induction s as [|a s IH]; simpl; [done|].
  destruct (rstrip s) as [|b r] eqn:Hr.
  - destruct (isspace a) eqn:Ha; simpl; [done|]. by intros [= <-].
  - simpl. simpl in IH. destruct (chars r); done.
Qed.

End PathFacts.

(** ** chains/rag_chain.py: reference identifiers *)

(** X10. Every reference identifier the extractor returns is a proper
    file name: it is not empty, contains no path separator, does not end
    in whitespace, and does not read none/null. *)
Theorem reference_ids_wellformed (docs : list Document) (name : string) :
  name ∈ _extract_reference_ids docs →
  name ≠ ""
  ∧ ("/"%char ∉ chars name)
  ∧ (∀ c, last_char name = Some c → PyStr.isspace c = false)
  ∧ ¬ reads_null name.
Proof.
  intros (d & _ & Hname)%elem_of_extract_reference_ids.
  apply ref_name_Some in Hname as (v & _ & _ & -> & Hne & Hnull).
  split_and!; [done| |  |done].
  - apply PathFacts.basename_no_slash.
  - intros c Hc.
    destruct (PathFacts.basename_suffix (PyStr.strip (py_str v)))
      as [dir Hdir].
    rewrite <- (PathFacts.last_char_app dir) in Hc by done.
    rewrite <- Hdir in Hc. by apply PathFacts.last_char_rstrip in Hc.
Qed.

Lemma reference_ids_wellformed_witness :
  "disk_spike.txt" ≠ ""
  ∧ ("/"%char ∉ chars "disk_spike.txt")
  ∧ (∀ c, last_char "disk_spike.txt" = Some c → PyStr.isspace c = false)
  ∧ ¬ reads_null "disk_spike.txt".
Proof.
  apply (reference_ids_wellformed
           [doc_with_source " runbooks/disk_spike.txt  "]).
  vm_compute. apply list_elem_of_here.
Defined.

Lemma size_list_to_set_le (l : list string) :
  (size (list_to_set l : gset string) ≤ length l)%nat.
Proof.
  induction l as [|x l IH].
  - rewrite list_to_set_nil. by rewrite size_empty.
  - rewrite list_to_set_cons, size_union_alt, size_singleton. simpl.
    pose proof (subseteq_size (list_to_set l ∖ {[x]})
                  (list_to_set l : gset string)) as Hsub.
    assert (list_to_set l ∖ {[x]} ⊆ (list_to_set l : gset string)) as Hd
      by apply subseteq_difference_l, reflexivity.
    specialize (Hsub Hd). lia.
Qed.

Lemma length_omap_le {A B} (f : A → option B) (l : list A) :
  (length (omap f l) ≤ length l)%nat.
Proof.
  induction l as [|x l IH]; csimpl; [done|].
  destruct (f x); simpl; lia.
Qed.

(** X11. The extractor returns at most one identifier per document, and
    it returns none exactly when no document of the batch yields a
    name. *)
Theorem reference_ids_length (docs : list Document) :
  (length (_extract_reference_ids docs) ≤ length docs)%nat
  ∧ (_extract_reference_ids docs = [] ↔ Forall (λ d, ref_name d = None) docs).
Proof.
  split.
  - rewrite extract_reference_ids_set, merge_sort_Permutation.
    etrans; [apply size_list_to_set_le|].
    apply length_omap_le.
  - split.
    + intros Hnil. apply Forall_forall. intros d Hd.
      destruct (ref_name d) as [name|] eqn:Hname; [|done].
      assert (name ∈ _extract_reference_ids docs) as Hin
        by (apply elem_of_extract_reference_ids; eauto).
      rewrite Hnil in Hin. by apply elem_of_nil in Hin.
    + intros Hall.
      destruct (_extract_reference_ids docs) as [|name l] eqn:Hl; [done|].
      assert (name ∈ _extract_reference_ids docs) as Hin
        by (rewrite Hl; apply list_elem_of_here).
      apply elem_of_extract_reference_ids in Hin as (d & Hd & Hname).
      rewrite Forall_forall in Hall. specialize (Hall d Hd). congruence.
Qed.

(** X12. The identifiers of two batches put together are those of the
    first batch and those of the second: no document changes what
    another one contributes. *)
Theorem reference_ids_app (docs1 docs2 : list Document) (name : string) :
  name ∈ _extract_reference_ids (docs1 ++ docs2) ↔
  name ∈ _extract_reference_ids docs1 ∨ name ∈ _extract_reference_ids docs2.
Proof.
  rewrite !elem_of_extract_reference_ids. split.
  - intros (d & [Hd|Hd]%elem_of_app & Hname); [left|right]; eauto.
  - intros [(d & Hd & Hname)|(d & Hd & Hname)]; exists d;
      rewrite elem_of_app; eauto.
Qed.

(** ** chains/rag_chain.py: prompt context *)

Module ContextFacts.
Import PyStr StripFacts.

Lemma blank_app (a b : string) : blank (a ++ b) = blank a && blank b.
Proof.
  induction a as [|x a IH]; [done|].
  rewrite app_cons_str. simpl. by rewrite IH, andb_assoc.
Qed.

Lemma rstrip_app_blank s t : blank t = true → rstrip (s ++ t) = rstrip s.
Proof. intros Ht. by rewrite rstrip_app, Ht. Qed.

Lemma rstrip_app_nonblank s t :
  blank t = false → rstrip (s ++ t) = s ++ rstrip t.
Proof. intros Ht. by rewrite rstrip_app, Ht. Qed.

Lemma blank_app_r a b : blank b = false → blank (a ++ b) = false.
Proof. intros Hb. rewrite blank_app, Hb. apply andb_false_r. Qed.

Lemma blank_app_l a b : blank a = false → blank (a ++ b) = false.
Proof. intros Ha. by rewrite blank_app, Ha. Qed.

(** The text of one context block, after [strip]. *)
Lemma strip_block (source service content : string) :
  strip (NL ++ SP20 ++ "Source: " ++ source ++
         NL ++ SP20 ++ "Service: " ++ service ++
         NL ++ SP20 ++ "Content:" ++
         NL ++ SP20 ++ content ++
         NL ++ SP16) =
  "Source: " ++ source ++
  NL ++ SP20 ++ "Service: " ++ service ++
  NL ++ SP20 ++ "Content:" ++
  (if blank content then "" else NL ++ SP20 ++ rstrip content).
Proof.
  unfold strip.
  rewrite !lstrip_app_blank by done.
  rewrite (lstrip_app "Source: ").
  change (blank "Source: ") with false. cbv iota.
  change (lstrip "Source: ") with "Source: ".
  assert (∀ t, blank ("Content:" ++ t) = false) as Hc.
  { intros t. by apply blank_app_l. }
  assert (∀ t, blank ("Service: " ++ t) = false) as Hs.
  { intros t. by apply blank_app_l. }
  rewrite (rstrip_app_nonblank "Source: ")
    by (do 3 apply blank_app_r; apply Hs).
  rewrite (rstrip_app_nonblank source) by (do 2 apply blank_app_r; apply Hs).
  rewrite (rstrip_app_nonblank NL) by (apply blank_app_r, Hs).
  rewrite (rstrip_app_nonblank SP20) by apply Hs.
  rewrite (rstrip_app_nonblank "Service: ")
    by (do 3 apply blank_app_r; apply Hc).
  rewrite (rstrip_app_nonblank service) by (do 2 apply blank_app_r; apply Hc).
  rewrite (rstrip_app_nonblank NL) by (apply blank_app_r, Hc).
  rewrite (rstrip_app_nonblank SP20) by apply Hc.
  do 8 f_equal.
  destruct (blank content) eqn:Hb.
  - rewrite (rstrip_app_blank "Content:"); [done|].
    by rewrite !blank_app, Hb.
  - rewrite (rstrip_app_nonblank "Content:")
      by (do 2 apply blank_app_r; by apply blank_app_l).
    rewrite (rstrip_app_nonblank NL) by (apply blank_app_r; by apply blank_app_l).
    rewrite (rstrip_app_nonblank SP20) by (by apply blank_app_l).
    by rewrite (rstrip_app_blank content).
Qed.

End ContextFacts.

(** X13. The block a document contributes to the prompt context.  For a
    document with a metadata mapping it is the three labelled lines
    [Source:], [Service:] and [Content:], with ["unknown"] standing in
    for a missing [source_type] or [service] key, followed by the text
    of the chunk on a line of its own.  Trailing whitespace of the text
    is dropped, leading whitespace is kept, and a chunk whose text is
    whitespace only leaves a block that ends at [Content:]. *)
Theorem context_block_text (d : Document) (md : gmap string value) :
  metadata d = Some md →
  context_block d =
  (Ok ("Source: " ++ py_str (default (VStr "unknown") (md !! "source_type"))
       ++ NL ++ SP20 ++ "Service: "
       ++ py_str (default (VStr "unknown") (md !! "service"))
       ++ NL ++ SP20 ++ "Content:"
       ++ (if blank (page_content d) then ""
           else NL ++ SP20 ++ PyStr.rstrip (page_content d))),
   []).
Proof.
  intros Hmd. unfold context_block, metadata_get. rewrite Hmd.
  unfold mbind, M_bind, mret, M_ret. cbv beta iota zeta.
  by rewrite ContextFacts.strip_block.
Qed.

Lemma context_block_text_witness :
  context_block (mkDocument "  restart the pool.  "
                   (Some {[ "service" := VStr "trading-db" ]})) =
  (Ok ("Source: unknown" ++ NL ++ SP20 ++ "Service: trading-db"
       ++ NL ++ SP20 ++ "Content:" ++ NL ++ SP20 ++ "  restart the pool."),
   []).
Proof.
  rewrite (context_block_text
             (mkDocument "  restart the pool.  "
                (Some {[ "service" := VStr "trading-db" ]}))
             {[ "service" := VStr "trading-db" ]} eq_refl).
  vm_compute. reflexivity.
Defined.

Lemma context_block_no_metadata (d : Document) :
  metadata d = None →
  context_block d = (Raise (PyExc "AttributeError"), []).
Proof. intros Hmd. unfold context_block, metadata_get. by rewrite Hmd. Qed.

Lemma context_block_with_metadata (d : Document) :
  is_Some (metadata d) → ∃ block, context_block d = (Ok block, []).
Proof.
  intros [md Hmd]. unfold context_block, metadata_get. rewrite Hmd.
  by eexists.
Qed.

Lemma mapM_context_block_ok (l : list Document) :
  Forall (λ d, is_Some (metadata d)) l →
  ∃ blocks, mapM context_block l = (Ok blocks, [])
            ∧ length blocks = length l.
Proof.
  induction 1 as [|d l Hd _ (blocks & IH & Hlen)].
  { by exists []. }
  destruct (context_block_with_metadata d Hd) as [block Hblock].
  exists (block :: blocks). simpl. rewrite Hblock, bind_Ok, IH.
  simpl. by rewrite Hlen.
Qed.

Lemma mapM_context_block_raise (l : list Document) :
  Exists (λ d, metadata d = None) l →
  mapM context_block l = (Raise (PyExc "AttributeError"), []).
Proof.
  induction l as [|d l IH]; intros Hex; [by apply Exists_nil in Hex|].
  simpl. destruct (metadata d) as [md|] eqn:Hmd.
  - apply Exists_cons in Hex as [Hd|Hl]; [congruence|].
    destruct (context_block_with_metadata d) as [block Hblock];
      [by rewrite Hmd|].
    rewrite Hblock, bind_Ok, (IH Hl). done.
  - by rewrite (context_block_no_metadata d Hmd).
Qed.

(** X14. When the context builder returns and when it raises.  The empty
    list gives the fixed text [No relevant documents found.].  Otherwise
    only the first six documents are looked at: if each of them has a
    metadata mapping the builder returns a text, and if one of them has
    none it raises [AttributeError]; documents after the sixth never
    make it raise.  The builder never calls a collaborator. *)
Theorem build_context_outcome (docs : list Document) :
  _build_context [] = (Ok "No relevant documents found.", [])
  ∧ (Forall (λ d, is_Some (metadata d)) (take 6 docs) →
     ∃ ctx, _build_context docs = (Ok ctx, []))
  ∧ (Exists (λ d, metadata d = None) (take 6 docs) →
     _build_context docs = (Raise (PyExc "AttributeError"), [])).
Proof.
  split_and!; [done| |].
  - intros Hall. unfold _build_context, MAX_CONTEXT_DOCS.
    destruct docs as [|d docs]; [by eexists|]. simpl negb. cbv iota.
    destruct (mapM_context_block_ok _ Hall) as (blocks & -> & _).
    rewrite bind_Ok. by eexists.
  - intros Hex. unfold _build_context, MAX_CONTEXT_DOCS.
    destruct docs as [|d docs]; [by apply Exists_nil in Hex|].
    simpl negb. cbv iota.
    by rewrite (mapM_context_block_raise _ Hex).
Qed.

Lemma build_context_outcome_witness :
  (∃ ctx, _build_context
            (seven_documents ++ [mkDocument "no metadata" None]) =
          (Ok ctx, []))
  ∧ _build_context (mkDocument "no metadata" None :: seven_documents) =
    (Raise (PyExc "AttributeError"), []).
Proof.
  split.
  - apply (proj1 (proj2 (build_context_outcome
             (seven_documents ++ [mkDocument "no metadata" None])))).
    simpl. repeat constructor; by eexists.
  - apply (proj2 (proj2 (build_context_outcome
             (mkDocument "no metadata" None :: seven_documents)))).
    simpl. by constructor.
Defined.

(** ** chains/rag_chain.py: the context and the reference list *)

Lemma context_block_prompt_block (d : Document) :
  is_Some (metadata d) → context_block d = (Ok (prompt_block d), []).
Proof.
  intros [md Hmd].
  unfold context_block, metadata_get, prompt_block, prompt_entry.
  rewrite Hmd. unfold mbind, M_bind, mret, M_ret. cbv beta iota zeta.
  by rewrite ContextFacts.strip_block.
Qed.

Lemma mapM_context_block_blocks (l : list Document) :
  Forall (λ d, is_Some (metadata d)) l →
  mapM context_block l = (Ok (prompt_block <$> l), []).
Proof.
  induction 1 as [|d l Hd _ IH]; [done|].
  simpl. by rewrite (context_block_prompt_block d Hd), bind_Ok, IH.
Qed.

Lemma build_context_blocks (docs : list Document) (ctx : string) :
  docs ≠ [] →
  outcome (_build_context docs) = Ok ctx →
  Forall (λ d, is_Some (metadata d)) (take 6 docs)
  ∧ ctx = PyStr.join (NL ++ NL ++ "---" ++ NL ++ NL)
            (prompt_block <$> take 6 docs).
Proof.
  intros Hne. unfold _build_context, MAX_CONTEXT_DOCS.
  destruct docs as [|d docs]; [done|]. simpl negb. cbv iota.
  destruct (decide (Forall (λ d, is_Some (metadata d))
                      (take 6 (d :: docs)))) as [Hall|Hex].
  - rewrite (mapM_context_block_blocks _ Hall), bind_Ok. simpl.
    intros [= <-]. done.
  - apply not_Forall_Exists in Hex; [|apply _].
    rewrite mapM_context_block_raise; [done|].
    eapply Exists_impl; [exact Hex|]. intros x Hx. simpl in Hx.
    by apply eq_None_not_Some.
Qed.

(** C10. Whenever [generate_answer] returns, the reference list is the
    extractor's result on the whole routed list, while the one generation
    call gets a context that is made of the blocks of the first six routed
    documents and of nothing else: the block of each of them, in routed
    order, with the separator line in between.  So a document routed at
    position seven or later that carries a reference name has that name in
    the returned list although no text of it is in the context. *)
Theorem reference_ids_cover_all_routed {VectorStore : Type}
    (load_vector_index : result VectorStore)
    (retriever_invoke :
       VectorStore → search_type → search_kwargs → string →
       result (list Document))
    (intent_chain_invoke : string → result string)
    (rag_chain_invoke : string → string → string → result string)
    (q history : string) (service : option string)
    (label : string) (docs : list Document)
    (text : string) (refs : list string) :
  outcome (classify_intent intent_chain_invoke q) = Ok label →
  outcome (route_query load_vector_index retriever_invoke q label service) =
    Ok docs →
  outcome (generate_answer load_vector_index retriever_invoke
             intent_chain_invoke rag_chain_invoke q history service) =
    Ok (text, refs) →
  refs = _extract_reference_ids docs
  ∧ (docs ≠ [] →
     let ctx :=
       PyStr.join (NL ++ NL ++ "---" ++ NL ++ NL)
         (prompt_block <$> take 6 docs) in
     Forall (λ d, is_Some (metadata d)) (take 6 docs)
     ∧ rag_chain_invoke q ctx history = Ok text
     ∧ calls (generate_answer load_vector_index retriever_invoke
                intent_chain_invoke rag_chain_invoke q history service) =
       (EvClassify q
          :: calls (route_query load_vector_index retriever_invoke
                      q label service)
          ++ [EvGenerate q ctx history])%list
     ∧ filter (λ e, is_generate e = true)
         (calls (generate_answer load_vector_index retriever_invoke
                   intent_chain_invoke rag_chain_invoke
                   q history service)) =
       [EvGenerate q ctx history])
  ∧ (∀ d name, d ∈ drop 6 docs → ref_name d = Some name → name ∈ refs).
Proof.
  intros Hc Hr.
  rewrite (generate_answer_routed _ _ _ _ q history service label docs Hc Hr).
  intros Hrun.
  assert (refs = _extract_reference_ids docs) as ->.
  { destruct docs as [|d docs]; simpl in Hrun; [by simplify_eq|].
    destruct (outcome (_build_context (d :: docs))) as [ctx|e]; [|done].
    simpl in Hrun. destruct (rag_chain_invoke q ctx history); by simplify_eq. }
  split_and!; [done| |].
  - intros Hne ctx. destruct docs as [|d docs]; [done|].
    destruct (outcome (_build_context (d :: docs))) as [ctx'|e] eqn:Hctx;
      [|done].
    destruct (build_context_blocks (d :: docs) ctx' Hne Hctx) as [Hall Heq].
    fold ctx in Heq. subst ctx'. simpl in Hrun |- *.
    split_and!; [done| |done|].
    + by destruct (rag_chain_invoke q ctx history); simplify_eq.
    + rewrite filter_cons, decide_False by done.
      rewrite filter_app, filter_generate_none
        by apply route_query_no_generate.
      done.
  - intros d name Hd%subseteq_drop Hname.
    apply elem_of_extract_reference_ids. by exists d.
Qed.

Lemma reference_ids_cover_all_routed_witness :
  let q := "disk usage spikes" in
  let run :=
    generate_answer (Ok ()) (table_invoke (λ _, seven_chunks))
      (const_intent "general_question") (const_answer "see the runbook")
      q "" None in
  let refs :=
    ["a.txt"; "b.txt"; "c.txt"; "d.txt"; "e.txt"; "f.txt"; "g.txt"] in
  let ctx :=
    PyStr.join (NL ++ NL ++ "---" ++ NL ++ NL)
      (prompt_block <$>
         [ chunk "runbooks/a.txt" "step a"; chunk "runbooks/b.txt" "step b";
           chunk "runbooks/c.txt" "step c"; chunk "runbooks/d.txt" "step d";
           chunk "runbooks/e.txt" "step e";
           chunk "runbooks/f.txt" "step f" ]) in
  outcome run = Ok ("see the runbook", refs)
  ∧ filter (λ e, is_generate e = true) (calls run) = [EvGenerate q ctx ""]
  ∧ "g.txt" ∈ refs
  ∧ "g.txt" ∉ _extract_reference_ids (take 6 seven_chunks).
Proof.
  intros q run refs ctx.
  assert (outcome run = Ok ("see the runbook", refs)) as Hrun
    by (vm_compute; reflexivity).
  destruct (reference_ids_cover_all_routed (Ok ())
              (table_invoke (λ _, seven_chunks))
              (const_intent "general_question")
              (const_answer "see the runbook") q "" None
              "general_question" seven_chunks "see the runbook" refs
              eq_refl eq_refl Hrun) as (_ & Hctx & Hlate).
  destruct (Hctx ltac:(done)) as (_ & _ & _ & Hgen).
  split_and!.
  - exact Hrun.
  - exact Hgen.
  - apply (Hlate (chunk "runbooks/g.txt" "step g") "g.txt").
    + simpl. apply list_elem_of_here.
    + vm_compute. reflexivity.
  - apply (bool_decide_unpack _). vm_compute. exact I.
Defined.

(** ** chains/rag_chain.py: the pipeline *)

Lemma route_query_calls_length {VectorStore : Type}
    (load_vector_index : result VectorStore) retriever_invoke
    q intent service :
  (length (calls (route_query load_vector_index retriever_invoke
                    q intent service)) ≤ 3)%nat.
Proof.
  assert (∀ flt top_k,
    (length (calls (_retrieve_with_filter load_vector_index retriever_invoke
                      q flt top_k)) ≤ 1)%nat) as Hone.
  { intros flt top_k. rewrite retrieve_with_filter_run.
    destruct load_vector_index; simpl; lia. }
  unfold route_query.
  repeat case_match; try (etrans; [apply Hone|lia]).
  unfold route_runbook_first. rewrite !retrieve_with_filter_run.
  destruct load_vector_index as [vs|e]; [|simpl; lia]. cbv zeta.
  repeat match goal with
  | |- context [retriever_invoke ?v ?st ?kw ?qq] =>
      destruct (retriever_invoke v st kw qq) as [[|? ?]|?];
      rewrite ?bind_Ok; simpl
  end; lia.
Qed.

(** X15. The collaborator calls of one [generate_answer] run always
    come in the same order: first the single classification call, then
    at most three searches of the Router, each a plain similarity
    search for the query, and last at most one generation call, which
    gets the query and the history as they were passed in.  This holds
    whatever the collaborators answer, failures included. *)
Theorem generate_answer_call_protocol {VectorStore : Type}
    (load_vector_index : result VectorStore)
    (retriever_invoke :
       VectorStore → search_type → search_kwargs → string →
       result (list Document))
    (intent_chain_invoke : string → result string)
    (rag_chain_invoke : string → string → string → result string)
    (q history : string) (service : option string) :
  ∃ searches generations,
    calls (generate_answer load_vector_index retriever_invoke
             intent_chain_invoke rag_chain_invoke q history service) =
      (EvClassify q :: searches ++ generations)%list
    ∧ Forall (plain_search_for q) searches
    ∧ (length searches ≤ 3)%nat
    ∧ (generations = []
       ∨ ∃ ctx, generations = [EvGenerate q ctx history]).
Proof.
  destruct (outcome (classify_intent intent_chain_invoke q))
    as [label|e] eqn:Hc.
  2:{ exists [], []. split_and!; [|constructor|simpl; lia|by left].
      unfold generate_answer.
      by rewrite calls_bind, Hc, classify_intent_calls. }
  destruct (outcome (route_query load_vector_index retriever_invoke
                       q label service)) as [docs|e] eqn:Hr.
  2:{ exists (calls (route_query load_vector_index retriever_invoke
                       q label service)), [].
      split_and!; [|apply route_query_plain|apply route_query_calls_length
                   |by left].
      unfold generate_answer.
      rewrite calls_bind, Hc, classify_intent_calls, calls_bind, Hr.
      by rewrite app_nil_r. }
  rewrite (generate_answer_routed _ _ _ _ q history service label docs Hc Hr).
  cbv zeta.
  destruct docs as [|d docs].
  { eexists _, []. rewrite app_nil_r.
    split_and!; [done|apply route_query_plain|apply route_query_calls_length
                |by left]. }
  destruct (outcome (_build_context (d :: docs))) as [ctx|e].
  - eexists _, [EvGenerate q ctx history].
    split_and!; [done|apply route_query_plain|apply route_query_calls_length
                |right; by eexists].
  - eexists _, []. rewrite app_nil_r.
    split_and!; [done|apply route_query_plain|apply route_query_calls_length
                |by left].
Qed.

(** X16. [generate_answer] does not stop at an out-of-scope question:
    when the classifier says [general_question] and the index is
    loaded, the broad search (result count five, at most the service
    entry as filter) is still issued, and when it returns documents
    from which a context can be built the generation collaborator is
    called on them.  Keeping such questions away from retrieval is left
    to the callers. *)
Theorem generate_answer_routes_general_question {VectorStore : Type}
    (vs : VectorStore)
    (retriever_invoke :
       VectorStore → search_type → search_kwargs → string →
       result (list Document))
    (intent_chain_invoke : string → result string)
    (rag_chain_invoke : string → string → string → result string)
    (q history : string) (service : option string) :
  outcome (classify_intent intent_chain_invoke q) = Ok "general_question" →
  let kw := mkKwargs 5
              (c ← service_entry service; Some {[ "service" := c ]}) None in
  let run :=
    generate_answer (Ok vs) retriever_invoke intent_chain_invoke
      rag_chain_invoke q history service in
  take 2 (calls run) = [EvClassify q; EvSearch similarity kw q]
  ∧ (∀ d docs ctx,
       retriever_invoke vs similarity kw q = Ok (d :: docs) →
       outcome (_build_context (d :: docs)) = Ok ctx →
       calls run =
       [EvClassify q; EvSearch similarity kw q; EvGenerate q ctx history]).
Proof.
  intros Hc kw run.
  assert (route_query (Ok vs) retriever_invoke q "general_question" service
          = (retriever_invoke vs similarity kw q,
             [EvSearch similarity kw q])) as Hroute
    by (by rewrite route_query_default_run).
  split.
  - subst run. unfold generate_answer.
    rewrite calls_bind, Hc, classify_intent_calls, calls_bind, Hroute.
    simpl. by destruct (retriever_invoke vs similarity kw q).
  - intros d docs ctx Hdocs Hctx. subst run.
    rewrite (generate_answer_routed _ _ _ _ q history service
               "general_question" (d :: docs) Hc)
      by (by rewrite Hroute, <- Hdocs).
    cbv zeta. by rewrite Hctx, Hroute.
Qed.

Lemma generate_answer_routes_general_question_witness :
  calls (generate_answer (Ok ())
           (table_invoke (λ _, [doc_with_source "tickets/sr_1.txt"]))
           (const_intent "general_question") (const_answer "72 degrees")
           "what is the weather today?" "" None) =
  [EvClassify "what is the weather today?";
   EvSearch similarity (mkKwargs 5 None None) "what is the weather today?";
   EvGenerate "what is the weather today?"
     ("Source: unknown" ++ NL ++ SP20 ++ "Service: unknown"
      ++ NL ++ SP20 ++ "Content:" ++ NL ++ SP20 ++ "text") ""].
Proof.
  apply (proj2 (generate_answer_routes_general_question ()
           (table_invoke (λ _, [doc_with_source "tickets/sr_1.txt"]))
           (const_intent "general_question") (const_answer "72 degrees")
           "what is the weather today?" "" None eq_refl)
           (doc_with_source "tickets/sr_1.txt") []); reflexivity.
Defined.

(** X17. Failures after classification are not caught either.  If
    routing raises, [generate_answer] raises the same exception and
    never generates.  If the context cannot be built, it raises
    [AttributeError] and never generates.  If the generation
    collaborator raises, that exception comes out after the generation
    call, and the reference list that was already computed is lost. *)
Theorem generate_answer_failures {VectorStore : Type}
    (load_vector_index : result VectorStore)
    (retriever_invoke :
       VectorStore → search_type → search_kwargs → string →
       result (list Document))
    (intent_chain_invoke : string → result string)
    (rag_chain_invoke : string → string → string → result string)
    (q history : string) (service : option string) (label : string)
    (e : exn) :
  outcome (classify_intent intent_chain_invoke q) = Ok label →
  let routing :=
    route_query load_vector_index retriever_invoke q label service in
  let run :=
    generate_answer load_vector_index retriever_invoke intent_chain_invoke
      rag_chain_invoke q history service in
  (outcome routing = Raise e → run = (Raise e, EvClassify q :: calls routing))
  ∧ (∀ d docs,
       outcome routing = Ok (d :: docs) →
       Exists (λ d', metadata d' = None) (take 6 (d :: docs)) →
       run = (Raise (PyExc "AttributeError"), EvClassify q :: calls routing))
  ∧ (∀ d docs ctx,
       outcome routing = Ok (d :: docs) →
       outcome (_build_context (d :: docs)) = Ok ctx →
       rag_chain_invoke q ctx history = Raise e →
       run = (Raise e,
              (EvClassify q :: calls routing
                 ++ [EvGenerate q ctx history])%list)).
Proof.
  intros Hc routing run. subst routing run. split_and!.
  - intros Hr. unfold generate_answer.
    rewrite (run_eta (classify_intent _ q)), Hc, classify_intent_calls.
    rewrite bind_Ok. rewrite (run_eta (route_query _ _ q label service)), Hr.
    done.
  - intros d docs Hr Hex.
    rewrite (generate_answer_routed _ _ _ _ q history service label _ Hc Hr).
    cbv zeta.
    assert (_build_context (d :: docs) = (Raise (PyExc "AttributeError"), []))
      as ->; [|done].
    unfold _build_context, MAX_CONTEXT_DOCS. simpl negb. cbv iota.
    by rewrite (mapM_context_block_raise _ Hex).
  - intros d docs ctx Hr Hctx He.
    rewrite (generate_answer_routed _ _ _ _ q history service label _ Hc Hr).
    cbv zeta. by rewrite Hctx, He.
Qed.

Lemma generate_answer_failures_witness :
  generate_answer (Ok ())
    (table_invoke (only_row "log" "logs/app.log"))
    (const_intent "log_analysis") (λ _ _ _, Raise (PyExc "APIError"))
    "timeouts in the log" "" None =
  (Raise (PyExc "APIError"),
   [EvClassify "timeouts in the log";
    EvSearch similarity
      (mkKwargs 5 (Some (source_service_filter "log" None)) None)
      "timeouts in the log";
    EvGenerate "timeouts in the log"
      ("Source: unknown" ++ NL ++ SP20 ++ "Service: unknown"
       ++ NL ++ SP20 ++ "Content:" ++ NL ++ SP20 ++ "text") ""]).
Proof.
  apply (proj2 (proj2 (generate_answer_failures (Ok ())
           (table_invoke (only_row "log" "logs/app.log"))
           (const_intent "log_analysis") (λ _ _ _, Raise (PyExc "APIError"))
           "timeouts in the log" "" None "log_analysis" (PyExc "APIError")
           eq_refl))
           (doc_with_source "logs/app.log") []); reflexivity.
Defined.

(** ** app.py: conversation history *)

Lemma last_n_app_ge {A} (n : nat) (older recent : list A) :
  (n ≤ length recent)%nat → last_n n (older ++ recent) = last_n n recent.
Proof.
  intros Hn. unfold last_n. rewrite length_app.
  replace (length older + length recent - n)%nat
    with (length older + (length recent - n))%nat by lia.
  by rewrite drop_app_add.
Qed.

Lemma last_n_short {A} (n : nat) (xs : list A) :
  (length xs ≤ n)%nat → last_n n xs = xs.
Proof.
  intros Hn. unfold last_n.
  by replace (length xs - n)%nat with 0%nat by lia.
Qed.

(** X18. Only the last four turns of the conversation reach the prompt:
    whatever came before them leaves the formatted history unchanged. *)
Theorem format_history_window (older recent : list Turn) :
  (4 ≤ length recent)%nat →
  format_history (older ++ recent) = format_history recent.
Proof.
  intros Hlen. unfold format_history, MAX_HISTORY_TURNS.
  rewrite last_n_app_ge by done.
  destruct recent as [|t recent]; [simpl in Hlen; lia|].
  by destruct older.
Qed.

Lemma format_history_window_witness :
  format_history
    ([mkTurn "old question" "old answer"]
       ++ [mkTurn "q1" "a1"; mkTurn "q2" "a2"; mkTurn "q3" "a3";
           mkTurn "q4" "a4"]) =
  format_history
    [mkTurn "q1" "a1"; mkTurn "q2" "a2"; mkTurn "q3" "a3"; mkTurn "q4" "a4"].
Proof.
  apply (format_history_window [mkTurn "old question" "old answer"]
           [mkTurn "q1" "a1"; mkTurn "q2" "a2"; mkTurn "q3" "a3";
            mkTurn "q4" "a4"]).
  simpl. lia.
Defined.

Lemma join_snoc (sep : string) (l : list string) (x : string) :
  l ≠ [] → PyStr.join sep (l ++ [x]) = PyStr.join sep l ++ sep ++ x.
Proof.
  induction l as [|a l IH]; [done|]. intros _.
  destruct l as [|b l]; [done|].
  change (PyStr.join sep ((a :: b :: l) ++ [x]))
    with (a ++ sep ++ PyStr.join sep ((b :: l) ++ [x])).
  rewrite IH by done.
  change (PyStr.join sep (a :: b :: l))
    with (a ++ sep ++ PyStr.join sep (b :: l)).
  by rewrite !PathFacts.app_assoc_str.
Qed.

(** X19. A turn added to a history of fewer than four turns adds exactly
    its two lines, [User: ...] and [Assistant: ...], to the formatted
    text; the first turn replaces the placeholder
    [No prior conversation.]. *)
Theorem format_history_snoc (history : list Turn) (t : Turn) :
  (length history < 4)%nat →
  format_history (history ++ [t]) =
  (if nonempty history then format_history history ++ NL else "")
  ++ "User: " ++ user t ++ NL ++ "Assistant: " ++ assistant t.
Proof.
  intros Hlen. unfold format_history, MAX_HISTORY_TURNS.
  rewrite !last_n_short by (rewrite ?length_app; simpl; lia).
  rewrite foldl_snoc.
  destruct history as [|t0 history]; [done|].
  simpl nonempty. simpl negb. cbv iota.
  set (lines := foldl _ [] (t0 :: history)).
  assert (lines ≠ []) as Hne.
  { subst lines. clear.
    assert (∀ acc l,
      acc ≠ [] →
      foldl (λ (lines : list string) (h : Turn),
               (lines ++ [("User: " ++ user h)%string]
                      ++ [("Assistant: " ++ assistant h)%string])%list)
        acc l ≠ []) as Hacc.
    { intros acc l. revert acc. induction l as [|x l IH]; intros acc Hacc;
        [done|].
      simpl. apply IH. by destruct acc. }
    simpl. by apply Hacc. }
  rewrite (assoc_L (++)%list), !join_snoc; [|done|by destruct lines].
  by rewrite !PathFacts.app_assoc_str.
Qed.

Lemma format_history_snoc_witness :
  format_history ([mkTurn "q1" "a1"] ++ [mkTurn "q2" "a2"]) =
  (format_history [mkTurn "q1" "a1"] ++ NL)
  ++ "User: q2" ++ NL ++ "Assistant: a2".
Proof.
  apply (format_history_snoc [mkTurn "q1" "a1"] (mkTurn "q2" "a2")).
  simpl. lia.
Defined.

(** ** ui/app.py: the [/ask] endpoint *)

Lemma app_bind_Ok {A B} (a : A) (t : list app_event) (f : A → App B) :
  ((Ok a, t) : App A) ≫= f = ((f a).1, (t ++ (f a).2)%list).
Proof. unfold mbind, App_bind. by destruct (f a). Qed.

Lemma app_bind_Raise {A B} (e : exn) (t : list app_event) (f : A → App B) :
  ((Raise e, t) : App A) ≫= f = (Raise e, t).
Proof. done. Qed.

Lemma app_bind_ret_l {A B} (a : A) (f : A → App B) :
  (mret a : App A) ≫= f = f a.
Proof. unfold mret, App_ret. rewrite app_bind_Ok. by destruct (f a). Qed.

Lemma lift_run {A} (m : M A) : lift m = (outcome m, AppCore <$> calls m).
Proof. done. Qed.

Lemma app_run_eta {A} (m : App A) : m = (m.1, m.2).
Proof. by destruct m. Qed.

Section AskFacts.

Context {VectorStore : Type}.
Variable load_vector_index : result VectorStore.
Variable retriever_invoke :
  VectorStore → search_type → search_kwargs → string → result (list Document).
Variable intent_chain_invoke : string → result string.
Variable rag_chain_invoke : string → string → string → result string.
Variable structured_chain_invoke : string → result SupportResponse.
Variable exc_text : exn → string.

Lemma ask_try_query chat_history request_json query :
  request_query request_json = Some query →
  ask_try load_vector_index retriever_invoke intent_chain_invoke
    rag_chain_invoke structured_chain_invoke chat_history request_json =
  ask_query load_vector_index retriever_invoke intent_chain_invoke
    rag_chain_invoke structured_chain_invoke chat_history query.
Proof.
  unfold request_query, ask_try, ask_query.
  destruct request_json as [[m|]|e]; try done.
  change (Ok (Some m), []) with (mret (Some m) : App _).
  rewrite app_bind_ret_l. cbv beta iota.
  destruct (default (VStr "") (m !! "query")) as [| | |s] eqn:Hq; try done.
  intros [= <-]. by rewrite !app_bind_ret_l.
Qed.

Lemma ask_try_error chat_history request_json e :
  request_error request_json = Some e →
  ask_try load_vector_index retriever_invoke intent_chain_invoke
    rag_chain_invoke structured_chain_invoke chat_history request_json =
  (Raise e, []).
Proof.
  unfold request_error, ask_try.
  destruct request_json as [[m|]|e']; [| |by intros [= <-]].
  - change (Ok (Some m), []) with (mret (Some m) : App _).
    rewrite app_bind_ret_l. cbv beta iota.
    destruct (default (VStr "") (m !! "query")) as [| | |s] eqn:Hq; try done;
      intros [= <-]; by rewrite app_bind_ret_l.
  - intros [= <-].
    change (Ok None, []) with (mret None : App (option (gmap string value))).
    by rewrite app_bind_ret_l.
Qed.

Lemma request_query_or_error request_json :
  (∃ query, request_query request_json = Some query
            ∧ request_error request_json = None)
  ∨ (∃ e, request_error request_json = Some e
          ∧ request_query request_json = None).
Proof.
  unfold request_query, request_error.
  destruct request_json as [[m|]|e]; [|right; by eexists..].
  destruct (default (VStr "") (m !! "query")); (left + right); by eexists.
Qed.

Lemma ask_query_empty chat_history :
  ask_query load_vector_index retriever_invoke intent_chain_invoke
    rag_chain_invoke structured_chain_invoke chat_history "" =
  (Ok ((JError "Empty query", 400), chat_history), []).
Proof. done. Qed.

Lemma ask_query_classify_raise chat_history query e :
  query ≠ "" →
  outcome (classify_intent intent_chain_invoke query) = Raise e →
  ask_query load_vector_index retriever_invoke intent_chain_invoke
    rag_chain_invoke structured_chain_invoke chat_history query =
  (Raise e, [AppCore (EvClassify query)]).
Proof.
  intros Hq Hc. unfold ask_query, truthy.
  rewrite (proj2 (String.eqb_neq _ _) Hq). simpl negb. cbv iota.
  by rewrite (lift_run (classify_intent _ _)), Hc, classify_intent_calls.
Qed.

Lemma ask_query_out_of_scope chat_history query :
  query ≠ "" →
  outcome (classify_intent intent_chain_invoke query) =
    Ok "general_question" →
  ask_query load_vector_index retriever_invoke intent_chain_invoke
    rag_chain_invoke structured_chain_invoke chat_history query =
  (Ok ((JMessage OUT_OF_SCOPE, 200), chat_history),
   [AppCore (EvClassify query)]).
Proof.
  intros Hq Hc. unfold ask_query, truthy.
  rewrite (proj2 (String.eqb_neq _ _) Hq). simpl negb. cbv iota.
  rewrite (lift_run (classify_intent _ _)), Hc, classify_intent_calls.
  by rewrite app_bind_Ok.
Qed.

Lemma ask_query_in_scope chat_history query label :
  query ≠ "" →
  outcome (classify_intent intent_chain_invoke query) = Ok label →
  label ≠ "general_question" →
  let run :=
    generate_answer load_vector_index retriever_invoke intent_chain_invoke
      rag_chain_invoke query (format_history chat_history) None in
  let log := (AppCore <$> EvClassify query :: calls run) in
  ask_query load_vector_index retriever_invoke intent_chain_invoke
    rag_chain_invoke structured_chain_invoke chat_history query =
  match outcome run with
  | Raise e => (Raise e, log)
  | Ok (text, refs) =>
      match structured_chain_invoke text with
      | Raise e => (Raise e, (log ++ [AppStructure text])%list)
      | Ok r =>
          (Ok ((JAnswer (set_reference_docs r refs), 200),
               (chat_history ++ [mkTurn query text])%list),
           (log ++ [AppStructure text])%list)
      end
  end.
Proof.
  intros Hq Hc Hl run log. unfold ask_query, truthy.
  rewrite (proj2 (String.eqb_neq _ _) Hq). simpl negb. cbv iota.
  rewrite (lift_run (classify_intent _ _)), Hc, classify_intent_calls.
  rewrite app_bind_Ok.
  rewrite (proj2 (String.eqb_neq _ _) Hl).
  fold run. rewrite (lift_run run). subst log.
  destruct (outcome run) as [[text refs]|e]; [|done].
  rewrite app_bind_Ok. unfold to_structured_response.
  destruct (structured_chain_invoke text) as [r|e]; [|done].
  rewrite app_bind_Ok. by simpl.
Qed.

(** The four ways a request can end. *)
Lemma ask_cases chat_history request_json :
  let res :=
    ask load_vector_index retriever_invoke intent_chain_invoke
      rag_chain_invoke structured_chain_invoke exc_text
      chat_history request_json in
  (∃ e log, res = (((JError (exc_text e), 500), chat_history), log))
  ∨ res = (((JError "Empty query", 400), chat_history), [])
  ∨ (∃ q, res = (((JMessage OUT_OF_SCOPE, 200), chat_history),
                 [AppCore (EvClassify q)]))
  ∨ (∃ q text r log,
       request_query request_json = Some q ∧ q ≠ ""
       ∧ res = (((JAnswer r, 200),
                 (chat_history ++ [mkTurn q text])%list),
                (log ++ [AppStructure text])%list)).
Proof.
  intros res. subst res. unfold ask.
  destruct (request_query_or_error request_json)
    as [(q & Hq & _)|(e & He & _)].
  2:{ rewrite (ask_try_error _ _ _ He). left. by eexists _, _. }
  rewrite (ask_try_query _ _ _ Hq).
  destruct (decide (q = "")) as [->|Hne].
  { rewrite ask_query_empty. right. by left. }
  destruct (outcome (classify_intent intent_chain_invoke q))
    as [label|e] eqn:Hc.
  2:{ rewrite (ask_query_classify_raise _ _ _ Hne Hc).
      left. by eexists _, _. }
  destruct (decide (label = "general_question")) as [->|Hl].
  { rewrite (ask_query_out_of_scope _ _ Hne Hc).
    right. right. left. by eexists. }
  rewrite (ask_query_in_scope _ _ _ Hne Hc Hl). cbv zeta.
  destruct (outcome (generate_answer _ _ _ _ _ _ _)) as [[text refs]|e].
  2:{ left. by eexists _, _. }
  destruct (structured_chain_invoke text) as [r|e].
  2:{ left. by eexists _, _. }
  right. right. right. by eexists q, text, _, _.
Qed.

End AskFacts.


(** X21. Over any run of requests the history is append-only: what was
    there stays as a prefix, and at most one turn is added per
    request. *)
Theorem serve_history_append_only {VectorStore : Type}
    (load_vector_index : result VectorStore)
    (retriever_invoke :
       VectorStore → search_type → search_kwargs → string →
       result (list Document))
    (intent_chain_invoke : string → result string)
    (rag_chain_invoke : string → string → string → result string)
    (structured_chain_invoke : string → result SupportResponse)
    (exc_text : exn → string)
    (chat_history : list Turn)
    (requests : list (result (option (gmap string value)))) :
  let after :=
    serve load_vector_index retriever_invoke intent_chain_invoke
      rag_chain_invoke structured_chain_invoke exc_text
      chat_history requests in
  chat_history `prefix_of` after
  ∧ (length after ≤ length chat_history + length requests)%nat.
Proof.
  simpl. unfold serve. revert chat_history.
  induction requests as [|req requests IH]; intros h; simpl.
  { split; [done|lia]. }
  destruct (IH ((ask load_vector_index retriever_invoke intent_chain_invoke
                   rag_chain_invoke structured_chain_invoke exc_text
                   h req).1.2)) as [Hpre Hlen].
  destruct (ask_cases load_vector_index retriever_invoke intent_chain_invoke
              rag_chain_invoke structured_chain_invoke exc_text h req)
    as [(e & log & Heq)|[Heq|[(q & Heq)|(q & text & r & log & _ & _ & Heq)]]];
    rewrite Heq in Hpre, Hlen; rewrite Heq; simpl in *;
    try (split; [done|lia]).
  split.
  - etrans; [|exact Hpre]. by apply prefix_app_r.
  - rewrite length_app in Hlen. simpl in Hlen. lia.
Qed.

Lemma strip_blank (s : string) : blank s = true → PyStr.strip s = "".
Proof.
  intros Hs. unfold PyStr.strip. by rewrite (StripFacts.lstrip_blank s Hs).
Qed.

(** X22. A request whose JSON object has no ["query"] key, or has a
    query made of whitespace only, is turned down with status 400 and
    the body [{"error": "Empty query"}]: no collaborator is called and
    the history is left alone. *)
Theorem ask_rejects_empty_query {VectorStore : Type}
    (load_vector_index : result VectorStore)
    (retriever_invoke :
       VectorStore → search_type → search_kwargs → string →
       result (list Document))
    (intent_chain_invoke : string → result string)
    (rag_chain_invoke : string → string → string → result string)
    (structured_chain_invoke : string → result SupportResponse)
    (exc_text : exn → string)
    (chat_history : list Turn) (m : gmap string value) :
  m !! "query" = None
  ∨ (∃ s, m !! "query" = Some (VStr s) ∧ blank s = true) →
  ask load_vector_index retriever_invoke intent_chain_invoke
    rag_chain_invoke structured_chain_invoke exc_text
    chat_history (Ok (Some m)) =
  (((JError "Empty query", 400), chat_history), []).
Proof.
  intros Hm.
  assert (request_query (Ok (Some m)) = Some "") as Hq.
  { unfold request_query.
    destruct Hm as [->|(s & -> & Hs)]; simpl; [done|].
    by rewrite strip_blank. }
  unfold ask. by rewrite (ask_try_query _ _ _ _ _ _ _ _ Hq).
Qed.

Lemma ask_rejects_empty_query_witness :
  ask (Ok ()) (table_invoke no_documents) (const_intent "log_analysis")
    (const_answer "") const_structured exn_name
    [mkTurn "q1" "a1"] (query_json ("  " ++ NL)) =
  (((JError "Empty query", 400), [mkTurn "q1" "a1"]), []).
Proof.
  apply (ask_rejects_empty_query (Ok ()) (table_invoke no_documents)
           (const_intent "log_analysis") (const_answer "") const_structured
           exn_name [mkTurn "q1" "a1"]
           {[ "query" := VStr ("  " ++ NL) ]}).
  right. exists ("  " ++ NL). split; reflexivity.
Defined.

(** X23. A query the classifier labels [general_question] is answered
    by the front end itself: the fixed out-of-scope message with status
    200, after the one classification call; nothing is searched,
    generated or structured, and the history is left alone. *)
Theorem ask_out_of_scope {VectorStore : Type}
    (load_vector_index : result VectorStore)
    (retriever_invoke :
       VectorStore → search_type → search_kwargs → string →
       result (list Document))
    (intent_chain_invoke : string → result string)
    (rag_chain_invoke : string → string → string → result string)
    (structured_chain_invoke : string → result SupportResponse)
    (exc_text : exn → string)
    (chat_history : list Turn)
    (request_json : result (option (gmap string value))) (q : string) :
  request_query request_json = Some q → q ≠ "" →
  outcome (classify_intent intent_chain_invoke q) = Ok "general_question" →
  ask load_vector_index retriever_invoke intent_chain_invoke
    rag_chain_invoke structured_chain_invoke exc_text
    chat_history request_json =
  (((JMessage
       ("I am an L2 production support assistant. "
        ++ "Please ask questions related to production support issues."),
     200), chat_history),
   [AppCore (EvClassify q)]).
Proof.
  intros Hq Hne Hc. unfold ask.
  rewrite (ask_try_query _ _ _ _ _ _ _ _ Hq).
  by rewrite (ask_query_out_of_scope _ _ _ _ _ _ _ Hne Hc).
Qed.

Lemma ask_out_of_scope_witness :
  ask (Ok ()) (table_invoke (λ _, seven_documents))
    (const_intent " General_Question ") (const_answer "72 degrees")
    const_structured exn_name [] (query_json " what is the weather? ") =
  (((JMessage OUT_OF_SCOPE, 200), []),
   [AppCore (EvClassify "what is the weather?")]).
Proof.
  apply (ask_out_of_scope (Ok ()) (table_invoke (λ _, seven_documents))
           (const_intent " General_Question ") (const_answer "72 degrees")
           const_structured exn_name [] (query_json " what is the weather? ")
           "what is the weather?"); [reflexivity|discriminate|reflexivity].
Defined.



Lemma generate_answer_calls_cons {VectorStore : Type}
    (load_vector_index : result VectorStore) retriever_invoke
    intent_chain_invoke rag_chain_invoke q history service :
  ∃ rest,
    calls (generate_answer load_vector_index retriever_invoke
             intent_chain_invoke rag_chain_invoke q history service) =
    EvClassify q :: rest.
Proof.
  unfold generate_answer. rewrite calls_bind, classify_intent_calls.
  destruct (outcome (classify_intent intent_chain_invoke q)); by eexists.
Qed.

(** X25. An answered request.  When the query is in scope and both the
    pipeline and the structuring call return, [ask] answers with status
    200 the structured response in which the reference list is the one
    [generate_answer] extracted from the routed documents, whatever
    list the structuring collaborator had put there, and the other five
    fields are the collaborator's.  The history passed to the pipeline
    is the formatted history before this request.  The classification
    collaborator is called twice for the same query, once by [ask] and
    once inside [generate_answer], and the structuring call comes
    last. *)
Theorem ask_answered {VectorStore : Type}
    (load_vector_index : result VectorStore)
    (retriever_invoke :
       VectorStore → search_type → search_kwargs → string →
       result (list Document))
    (intent_chain_invoke : string → result string)
    (rag_chain_invoke : string → string → string → result string)
    (structured_chain_invoke : string → result SupportResponse)
    (exc_text : exn → string)
    (chat_history : list Turn)
    (request_json : result (option (gmap string value)))
    (q label text : string) (refs : list string) (r : SupportResponse) :
  request_query request_json = Some q → q ≠ "" →
  outcome (classify_intent intent_chain_invoke q) = Ok label →
  label ≠ "general_question" →
  outcome (generate_answer load_vector_index retriever_invoke
             intent_chain_invoke rag_chain_invoke
             q (format_history chat_history) None) = Ok (text, refs) →
  structured_chain_invoke text = Ok r →
  ∃ docs rest,
    outcome (route_query load_vector_index retriever_invoke q label None) =
      Ok docs
    ∧ refs = _extract_reference_ids docs
    ∧ ask load_vector_index retriever_invoke intent_chain_invoke
        rag_chain_invoke structured_chain_invoke exc_text
        chat_history request_json =
      (((JAnswer
           (mkSupportResponse (issue_summary r) (impacted_service r)
              (recommended_steps r) (escalation_required r) (confidence r)
              (_extract_reference_ids docs)),
         200),
        (chat_history ++ [mkTurn q text])%list),
       (AppCore (EvClassify q) :: AppCore (EvClassify q)
          :: (AppCore <$> rest) ++ [AppStructure text])%list).
Proof.
  intros Hq Hne Hc Hl Hrun Hs.
  destruct (generate_answer_returns _ _ _ _ _ _ _ _ _ Hrun)
    as (label' & docs & Hc' & Hr & ->).
  rewrite Hc in Hc'. injection Hc' as <-.
  destruct (generate_answer_calls_cons load_vector_index retriever_invoke
              intent_chain_invoke rag_chain_invoke q
              (format_history chat_history) None) as [rest Hrest].
  exists docs, rest. split_and!; [done..|].
  unfold ask. rewrite (ask_try_query _ _ _ _ _ _ _ _ Hq).
  rewrite (ask_query_in_scope _ _ _ _ _ _ _ _ Hne Hc Hl). cbv zeta.
  by rewrite Hrun, Hs, Hrest.
Qed.

Lemma ask_answered_witness :
  ∃ log,
    ask (Ok ()) (table_invoke (only_row "runbook" "runbooks/disk_spike.txt"))
      (const_intent "runbook_lookup") (const_answer "Free some space.")
      const_structured exn_name [] (query_json "disk usage spikes") =
    (((JAnswer
         (mkSupportResponse "Disk usage spike" "storage"
            ["Check the mount"; "Rotate the logs"] false "medium"
            ["disk_spike.txt"]),
       200),
      [mkTurn "disk usage spikes" "Free some space."]), log).
Proof.
  destruct (ask_answered (Ok ())
              (table_invoke (only_row "runbook" "runbooks/disk_spike.txt"))
              (const_intent "runbook_lookup")
              (const_answer "Free some space.") const_structured exn_name []
              (query_json "disk usage spikes") "disk usage spikes"
              "runbook_lookup" "Free some space." ["disk_spike.txt"]
              guessed_response)
    as (docs & rest & Hr & Hrefs & Hask);
    [reflexivity|discriminate|reflexivity|discriminate
    |vm_compute; reflexivity|reflexivity|].
  eexists. rewrite Hask, <- Hrefs. reflexivity.
Defined.

Lemma ask_query_history_text {VectorStore : Type}
    (load_vector_index : result VectorStore) retriever_invoke
    intent_chain_invoke rag_chain_invoke structured_chain_invoke
    (h h' : list Turn) (q : string) :
  format_history h = format_history h' →
  let run hist :=
    ask_query load_vector_index retriever_invoke intent_chain_invoke
      rag_chain_invoke structured_chain_invoke hist q in
  (run h).2 = (run h').2
  ∧ match (run h).1, (run h').1 with
    | Ok (resp, _), Ok (resp', _) => resp = resp'
    | Raise e, Raise e' => e = e'
    | _, _ => False
    end.
Proof.
  intros Hfmt run. subst run. cbv beta.
  destruct (decide (q = "")) as [->|Hne].
  { by rewrite !ask_query_empty. }
  destruct (outcome (classify_intent intent_chain_invoke q))
    as [label|e] eqn:Hc.
  2:{ by rewrite !(ask_query_classify_raise _ _ _ _ _ _ _ _ Hne Hc). }
  destruct (decide (label = "general_question")) as [->|Hl].
  { by rewrite !(ask_query_out_of_scope _ _ _ _ _ _ _ Hne Hc). }
  rewrite !(ask_query_in_scope _ _ _ _ _ _ _ _ Hne Hc Hl). cbv zeta.
  rewrite <- Hfmt.
  destruct (outcome (generate_answer _ _ _ _ _ _ _)) as [[text refs]|e];
    [|done].
  by destruct (structured_chain_invoke text).
Qed.

(** X26. What [ask] answers, and which collaborator calls it makes,
    depend on the conversation only through its last four turns: with
    anything put in front of four or more recent turns, the response
    (body and status) and the call log are the same. *)
Theorem ask_sees_last_four_turns {VectorStore : Type}
    (load_vector_index : result VectorStore)
    (retriever_invoke :
       VectorStore → search_type → search_kwargs → string →
       result (list Document))
    (intent_chain_invoke : string → result string)
    (rag_chain_invoke : string → string → string → result string)
    (structured_chain_invoke : string → result SupportResponse)
    (exc_text : exn → string)
    (older recent : list Turn)
    (request_json : result (option (gmap string value))) :
  (4 ≤ length recent)%nat →
  let run h :=
    ask load_vector_index retriever_invoke intent_chain_invoke
      rag_chain_invoke structured_chain_invoke exc_text h request_json in
  (run (older ++ recent)%list).1.1 = (run recent).1.1
  ∧ (run (older ++ recent)%list).2 = (run recent).2.
Proof.
  intros Hlen run. subst run. cbv beta.
  assert (format_history (older ++ recent) = format_history recent) as Hfmt.
  { unfold format_history, MAX_HISTORY_TURNS.
    rewrite last_n_app_ge by done.
    destruct recent as [|t recent]; [simpl in Hlen; lia|].
    by destruct older. }
  unfold ask.
  destruct (request_query_or_error request_json)
    as [(q & Hq & _)|(e & He & _)].
  2:{ by rewrite !(ask_try_error _ _ _ _ _ _ _ _ He). }
  rewrite !(ask_try_query _ _ _ _ _ _ _ _ Hq).
  destruct (ask_query_history_text load_vector_index retriever_invoke
              intent_chain_invoke rag_chain_invoke structured_chain_invoke
              (older ++ recent) recent q Hfmt) as [Hlog Hres].
  cbv zeta beta in Hlog, Hres.
  destruct (ask_query _ _ _ _ _ (older ++ recent)%list q)
    as [[[resp hist]|e] log];
    destruct (ask_query _ _ _ _ _ recent q) as [[[resp' hist']|e'] log'];
    simpl in *; try done; by subst.
Qed.

Lemma ask_sees_last_four_turns_witness :
  let recent :=
    [mkTurn "q1" "a1"; mkTurn "q2" "a2"; mkTurn "q3" "a3"; mkTurn "q4" "a4"] in
  let run h :=
    ask (Ok ()) (table_invoke (only_row "runbook" "runbooks/disk_spike.txt"))
      (const_intent "runbook_lookup") (const_answer "Free some space.")
      const_structured exn_name h (query_json "disk usage spikes") in
  (run ([mkTurn "q0" "a0"] ++ recent)%list).2 = (run recent).2.
Proof.
  intros recent run.
  apply (ask_sees_last_four_turns (Ok ())
           (table_invoke (only_row "runbook" "runbooks/disk_spike.txt"))
           (const_intent "runbook_lookup") (const_answer "Free some space.")
           const_structured exn_name [mkTurn "q0" "a0"] recent
           (query_json "disk usage spikes")).
  simpl. lia.
Defined.

(** ** ingestion/loaders.py *)

Lemma source_priority_folders (folder : string) (p : Z) :
  SOURCE_PRIORITY !! folder = Some p ↔
  (folder = "runbooks" ∧ p = 1) ∨ (folder = "alerts" ∧ p = 2)
  ∨ (folder = "incidents" ∧ p = 3) ∨ (folder = "tickets" ∧ p = 4)
  ∨ (folder = "logs" ∧ p = 5).
Proof.
  unfold SOURCE_PRIORITY. split.
  - intros H.
    repeat (apply lookup_insert_Some in H as [[<- <-]|[? H]]; [tauto|]).
    apply lookup_singleton_Some in H as [<- <-]. tauto.
  - intros [[-> ->]|[[-> ->]|[[-> ->]|[[-> ->]|[-> ->]]]]]; reflexivity.
Qed.

Section IngestionFacts.

Variable re_search_group1 : string → string → option string.
Variable utcnow_isoformat : string.

(** What enrichment returns, entry by entry. *)
Lemma enrich_metadata_Ok doc folder idx doc' :
  enrich_metadata re_search_group1 utcnow_isoformat doc folder idx = Ok doc' →
  ∃ p old md,
    SOURCE_PRIORITY !! folder = Some p
    ∧ metadata doc = Some old
    ∧ doc' = mkDocument (page_content doc) (Some (md ∪ old))
    ∧ md !! "source" = None
    ∧ md !! "source_type" = Some (VStr (PyFmt.rstrip_char "s" folder))
    ∧ md !! "priority_order" = Some (VInt p)
    ∧ md !! "environment" = Some (VStr "prod")
    ∧ md !! "service" =
      Some (VStr (extract_field re_search_group1 "Service:\s*(.*)"
                    (page_content doc) "unknown")).
Proof.
  unfold enrich_metadata.
  destruct (SOURCE_PRIORITY !! folder) as [p|] eqn:Hp; [|done].
  destruct (metadata doc) as [old|] eqn:Hold; [|done].
  intros [= <-]. eexists p, old, _. split_and!; [done|done|done|..];
    repeat case_match; by simplify_map_eq.
Qed.

End IngestionFacts.

(** X27. Enrichment leaves the origin of a document alone: the text and
    the ["source"] entry of an enriched document are those of the
    document that came in, so a batch and its enriched batch give the
    same reference identifiers. *)
Theorem enrichment_keeps_reference_ids
    (re_search_group1 : string → string → option string)
    (utcnow_isoformat : string) (docs docs' : list Document) :
  Forall2 (λ doc doc',
      ∃ folder idx,
        enrich_metadata re_search_group1 utcnow_isoformat doc folder idx =
        Ok doc')
    docs docs' →
  Forall2 (λ doc doc',
      page_content doc' = page_content doc
      ∧ source_of doc' = source_of doc)
    docs docs'
  ∧ _extract_reference_ids docs' = _extract_reference_ids docs.
Proof.
  intros Hall.
  assert (Forall2 (λ doc doc',
            page_content doc' = page_content doc
            ∧ source_of doc' = source_of doc) docs docs') as Hsrc.
  { eapply Forall2_impl; [exact Hall|].
    intros doc doc' (folder & idx & Hen). simpl in Hen.
    apply enrich_metadata_Ok in Hen
      as (p & old & md & _ & Hold & -> & Hsource & _).
    split; [done|]. unfold source_of, md_source. rewrite Hold. simpl.
    by rewrite lookup_union_r. }
  split; [done|].
  rewrite !extract_reference_ids_set. do 3 f_equal.
  clear Hall. induction Hsrc as [|doc doc' docs docs' [_ Hs] _ IH]; [done|].
  csimpl. rewrite IH. unfold ref_name, md_ref_name.
  unfold source_of in Hs. by rewrite Hs.
Qed.

Lemma enrichment_keeps_reference_ids_witness :
  ∃ doc',
    enrich_metadata (λ _ _, Some " trading-db ") "2026-01-01T00:00:00"
      (doc_with_source "data/runbooks/db_pool.txt") "runbooks" 12 = Ok doc'
    ∧ _extract_reference_ids [doc'] = ["db_pool.txt"].
Proof.
  eexists. split; [reflexivity|].
  rewrite (proj2 (enrichment_keeps_reference_ids
             (λ _ _, Some " trading-db ") "2026-01-01T00:00:00"
             [doc_with_source "data/runbooks/db_pool.txt"] [_]
             ltac:(repeat constructor; by eexists "runbooks", 12))).
  vm_compute. reflexivity.
Defined.

(** X28. When enrichment returns and when it raises.  It raises
    [KeyError] for a folder that is not one of the five configured
    ones, and [AttributeError] for a document without a metadata
    mapping.  Otherwise it returns a document whose metadata has the
    source type (the folder name without its trailing s: one of
    runbook, alert, incident, ticket, log), the folder's priority
    between 1 and 5, the environment [prod] and a service text, each
    replacing what the document had under that key. *)
Theorem enrich_metadata_outcome
    (re_search_group1 : string → string → option string)
    (utcnow_isoformat : string) (doc : Document) (folder : string)
    (idx : Z) :
  let run :=
    enrich_metadata re_search_group1 utcnow_isoformat doc folder idx in
  (folder ∉ ["runbooks"; "alerts"; "incidents"; "tickets"; "logs"] →
     run = Raise (PyExc "KeyError"))
  ∧ (folder ∈ ["runbooks"; "alerts"; "incidents"; "tickets"; "logs"] →
     metadata doc = None → run = Raise (PyExc "AttributeError"))
  ∧ (∀ doc', run = Ok doc' →
       ∃ md' p svc,
         metadata doc' = Some md'
         ∧ md' !! "source_type" = Some (VStr (PyFmt.rstrip_char "s" folder))
         ∧ PyFmt.rstrip_char "s" folder
             ∈ ["runbook"; "alert"; "incident"; "ticket"; "log"]
         ∧ md' !! "priority_order" = Some (VInt p) ∧ 1 ≤ p ≤ 5
         ∧ SOURCE_PRIORITY !! folder = Some p
         ∧ md' !! "environment" = Some (VStr "prod")
         ∧ md' !! "service" = Some (VStr svc)).
Proof.
  intros run. subst run. split_and!.
  - intros Hnot. unfold enrich_metadata.
    destruct (SOURCE_PRIORITY !! folder) as [p|] eqn:Hp; [|done].
    apply source_priority_folders in Hp. destruct Hnot.
    rewrite !elem_of_cons. tauto.
  - intros Hin Hmd. unfold enrich_metadata. rewrite Hmd.
    destruct (SOURCE_PRIORITY !! folder) as [p|] eqn:Hp; [done|].
    rewrite !elem_of_cons, elem_of_nil in Hin.
    destruct Hin as [->|[->|[->|[->|[->|[]]]]]]; by vm_compute in Hp.
  - intros doc' Hen.
    apply enrich_metadata_Ok in Hen
      as (p & old & md & Hp & Hold & -> & _ & Hst & Hprio & Henv & Hsvc).
    eexists (md ∪ old), p, _.
    rewrite !(lookup_union_l' _ _ _) by (by eexists).
    split_and!; try done.
    + apply source_priority_folders in Hp.
      destruct Hp as [[-> _]|[[-> _]|[[-> _]|[[-> _]|[-> _]]]]];
        by apply (bool_decide_unpack _).
    + apply source_priority_folders in Hp. lia.
    + apply source_priority_folders in Hp. lia.
Qed.

Lemma enrich_metadata_outcome_witness :
  enrich_metadata (λ _ _, None) "2026-01-01T00:00:00"
    (doc_with_source "data/misc/readme.txt") "misc" 1 =
  Raise (PyExc "KeyError").
Proof.
  apply (proj1 (enrich_metadata_outcome (λ _ _, None) "2026-01-01T00:00:00"
           (doc_with_source "data/misc/readme.txt") "misc" 1)).
  apply (bool_decide_unpack _). vm_compute. exact I.
Defined.

(** ** ingestion/chunking.py *)

Lemma configured_splitter_sizes (source_type : string) :
  let s := configured_splitter source_type in
  0 < chunk_overlap s < chunk_size s ∧ chunk_size s ≤ 900.
Proof.
  unfold configured_splitter, SPLITTER_CONFIG. simpl.
  destruct (_ !! source_type) as [[size overlap]|] eqn:Hcfg; simpl; [|lia].
  repeat (apply lookup_insert_Some in Hcfg as [[_ [= <- <-]]|[_ Hcfg]];
          [lia|]).
  apply lookup_singleton_Some in Hcfg as [_ [= <- <-]]. lia.
Qed.

(** X29. The splitter cache is transparent.  Starting from a cache in
    which every splitter is the one configured for its key (the empty
    cache is such), [get_splitter] returns the splitter configured for
    the source type asked for, with the default sizes 700/100 for a
    type outside the table, and leaves a cache that is again coherent,
    keeps every earlier entry and now holds that splitter; asking again
    changes nothing.  The overlap of a returned splitter is always
    positive and smaller than its chunk size. *)
Theorem get_splitter_cache (source_type : string)
    (cache : gmap string Splitter) :
  cache_coherent cache →
  let res := get_splitter source_type cache in
  res.1 = configured_splitter source_type
  ∧ cache_coherent res.2
  ∧ cache ⊆ res.2
  ∧ res.2 !! source_type = Some res.1
  ∧ get_splitter source_type res.2 = res
  ∧ 0 < chunk_overlap res.1 < chunk_size res.1.
Proof.
  intros Hcoh res.
  assert (res.1 = configured_splitter source_type
          ∧ cache_coherent res.2 ∧ cache ⊆ res.2
          ∧ res.2 !! source_type = Some res.1) as (H1 & H2 & H3 & H4).
  { subst res. unfold get_splitter.
    case_bool_decide as Hdom; simpl.
    - apply not_elem_of_dom in Hdom.
      rewrite lookup_insert_eq. simpl. split_and!; [done| |  |done].
      + by apply map_Forall_insert_2.
      + by apply insert_subseteq.
    - apply elem_of_dom in Hdom as [s Hs].
      rewrite Hs. simpl. split_and!; [|done|done|done].
      by apply (Hcoh source_type s). }
  split_and!; try done.
  - unfold get_splitter at 1.
    rewrite bool_decide_eq_false_2.
    + rewrite H4. simpl. symmetry. apply surjective_pairing.
    + intros Hnot. apply Hnot. apply elem_of_dom. by eexists.
  - rewrite H1. apply configured_splitter_sizes.
  - rewrite H1. apply configured_splitter_sizes.
Qed.

Lemma get_splitter_cache_witness :
  (get_splitter "log" ∅).1 = mkSplitter 300 50 [NL ++ NL; NL; " "; ""]
  ∧ get_splitter "log" (get_splitter "log" ∅).2 = get_splitter "log" ∅.
Proof.
  destruct (get_splitter_cache "log" ∅) as (H1 & _ & _ & _ & H5 & _).
  { apply map_Forall_empty. }
  split; [exact H1|exact H5].
Defined.
